(** * web_clipper: the clip pipeline of [web_clipper.py]

    A shallow embedding of the handler of [web_clipper.py]: the filename
    decoder [parse_filename], the publish step [upload_to_github] with its
    deploy poll, the two extraction paths [url2md] and
    [get_page_content_by_bs], the summarizer [generate_summary_tags], the
    note recorder [save_to_notion] and the orchestrator [process_file].

    Python strings are sequences of Unicode code points; the external
    services (file system, GitHub, HTTP, the AI provider, Notion, Telegram)
    are an oracle that answers the n-th call of each kind, and every call is
    recorded in a trace. *)

From Stdlib Require Import List ZArith NArith Lia Bool Ascii String.
Import ListNotations.

Set Implicit Arguments.

(** ** Python [str] *)

Module PyStr.

(** A Python string: the list of its code points. *)
Definition pystr := list N.

Definition eqb (a b : pystr) : bool :=
  if list_eq_dec N.eq_dec a b then true else false.

(** Decoding of a UTF-8 source literal into code points. *)
Fixpoint utf8_decode (bs : list N) : pystr :=
  match bs with
  | [] => []
  | b0 :: r0 =>
      if (b0 <? 128)%N then b0 :: utf8_decode r0
      else match r0 with
      | [] => [b0]
      | b1 :: r1 =>
          if (b0 <? 224)%N
          then ((b0 - 192) * 64 + (b1 - 128))%N :: utf8_decode r1
          else match r1 with
          | [] => [b0; b1]
          | b2 :: r2 =>
              if (b0 <? 240)%N
              then ((b0 - 224) * 4096 + (b1 - 128) * 64 + (b2 - 128))%N
                     :: utf8_decode r2
              else match r2 with
              | [] => [b0; b1; b2]
              | b3 :: r3 =>
                  ((b0 - 240) * 262144 + (b1 - 128) * 4096
                   + (b2 - 128) * 64 + (b3 - 128))%N :: utf8_decode r3
              end
          end
      end
  end.

Definition lit (s : string) : pystr :=
  utf8_decode (map N_of_ascii (list_ascii_of_string s)).

(** [s.startswith(p)] *)
Fixpoint startswith (p s : pystr) : bool :=
  match p, s with
  | [], _ => true
  | _ :: _, [] => false
  | a :: p', b :: s' => N.eqb a b && startswith p' s'
  end.

(** [c in s] for a one-character [c] *)
Definition contains (c : N) (s : pystr) : bool := existsb (N.eqb c) s.

(** [s.split(c)] for a one-character separator: never the empty list. *)
Fixpoint split (c : N) (s : pystr) : list pystr :=
  match s with
  | [] => [[]]
  | x :: s' =>
      if N.eqb x c then [] :: split c s'
      else match split c s' with
           | [] => [[x]]
           | h :: t => (x :: h) :: t
           end
  end.

(** [s.split(c, 1)]: cut at the first [c], if there is one. *)
Fixpoint split1 (c : N) (s : pystr) : list pystr :=
  match s with
  | [] => [[]]
  | x :: s' =>
      if N.eqb x c then [[]; s']
      else match split1 c s' with
           | h :: t => (x :: h) :: t
           | [] => [[x]]
           end
  end.

(** [s.rsplit(c, 1)]: cut at the last [c], if there is one. *)
Fixpoint rsplit1 (c : N) (s : pystr) : list pystr :=
  match s with
  | [] => [[]]
  | x :: s' =>
      if contains c s' then
        match rsplit1 c s' with
        | h :: t => (x :: h) :: t
        | [] => [[x]]
        end
      else if N.eqb x c then [[]; s']
      else [x :: s']
  end.

(** [s.replace(old, new)] for a one-character [old] *)
Definition replace_char (old : N) (new : pystr) (s : pystr) : pystr :=
  flat_map (fun x => if N.eqb x old then new else [x]) s.

(** [s.replace(old, new)], leftmost non-overlapping occurrences; [skip]
    counts the characters of a matched occurrence still to be dropped. *)
Fixpoint replace_from (old new : pystr) (skip : nat) (s : pystr) : pystr :=
  match s with
  | [] => []
  | x :: s' =>
      match skip with
      | S k => replace_from old new k s'
      | O =>
          if startswith old s
          then new ++ replace_from old new (List.length old - 1) s'
          else x :: replace_from old new 0 s'
      end
  end.

Definition replace (old new s : pystr) : pystr :=
  match old with
  | [] => new ++ flat_map (fun x => x :: new) s
  | _ :: _ => replace_from old new 0 s
  end.

(** [str.isspace] of one character. *)
Definition isspace (x : N) : bool :=
  ((9 <=? x) && (x <=? 13) || (28 <=? x) && (x <=? 32)
   || (x =? 133) || (x =? 160) || (x =? 5760)
   || (8192 <=? x) && (x <=? 8202)
   || (x =? 8232) || (x =? 8233) || (x =? 8239) || (x =? 8287)
   || (x =? 12288))%N.

Fixpoint lstrip (s : pystr) : pystr :=
  match s with
  | [] => []
  | x :: s' => if isspace x then lstrip s' else s
  end.

Definition rstrip (s : pystr) : pystr := rev (lstrip (rev s)).

(** [s.strip()] *)
Definition strip (s : pystr) : pystr := rstrip (lstrip s).

(** Line boundaries of [str.splitlines]. *)
Definition islinebreak (x : N) : bool :=
  ((10 <=? x) && (x <=? 13) || (28 <=? x) && (x <=? 30)
   || (x =? 133) || (x =? 8232) || (x =? 8233))%N.

(** [s.splitlines()]: "\r\n" is one boundary, and a final boundary opens
    no empty last line. *)
Fixpoint splitlines_from (cur : pystr) (s : pystr) : list pystr :=
  match s with
  | [] => match cur with [] => [] | _ :: _ => [rev cur] end
  | x :: s' =>
      if islinebreak x then
        match s' with
        | y :: s'' =>
            if (N.eqb x 13 && N.eqb y 10)%bool
            then rev cur :: splitlines_from [] s''
            else rev cur :: splitlines_from [] s'
        | [] => [rev cur]
        end
      else splitlines_from (x :: cur) s'
  end.

Definition splitlines (s : pystr) : list pystr := splitlines_from [] s.

(** [sep.join(xs)] *)
Fixpoint join (sep : pystr) (xs : list pystr) : pystr :=
  match xs with
  | [] => []
  | [x] => x
  | x :: r => x ++ sep ++ join sep r
  end.

(** [os.path.basename(p)]: what follows the last '/'. *)
Fixpoint basename (p : pystr) : pystr :=
  match p with
  | [] => []
  | x :: p' => if contains 47 p' then basename p'
               else if N.eqb x 47 then p' else p
  end.

End PyStr.

Import PyStr.

(** ** Exceptions, configuration and the outside world *)

(** The exception classes the handler distinguishes or raises itself.
    [RequestException] stands for [requests.RequestException] and its
    subclasses; everything else is an [Exception] of another class. *)
Inductive exn_class :=
| RequestException | GithubException | OSError | RuntimeError | ValueError
| AttributeError | TypeError | IndexError | TelegramError | APIError.

(** An exception: its class, its [str(e)], and its [response] attribute,
    that the handler of [save_to_notion] reads: [None] for an exception
    that has no such attribute, [Some None] when the attribute holds
    [None], [Some (Some text)] for a response with that [text]. *)
Record exn := MkExn {
  exn_cls : exn_class;
  exn_str : pystr;
  exn_response : option (option pystr)
}.

(** An exception without a [response] attribute. *)
Definition Exn (cls : exn_class) (message : pystr) : exn :=
  MkExn cls message None.

Definition is_request_exception (e : exn) : bool :=
  match exn_cls e with RequestException => true | _ => false end.

Inductive provider := Azure | Deepseek | Gemini | OpenAI.

(** [self.config]: the keys read with [config.get(key, default)] are
    optional. *)
Record config := Config {
  github_repo : pystr;
  github_pages_domain : pystr;
  github_pages_max_retries : option Z;
  ai_provider : provider;
  openai_max_retries : option Z;
  notify_on_ai_error : option bool;
  skip_ai_on_error : option bool;
  default_summary : option pystr;
  default_tags : option (list pystr);
  skip_notion_on_error : option bool
}.

Definition get {A} (o : option A) (default : A) : A :=
  match o with Some a => a | None => default end.

(** An HTTP exchange of [requests]: a response, or an exception. *)
Inductive http_result :=
| Response (status_code : Z) (text : pystr)
| HttpError (e : exn).

(** What the code looks at in a parsed document: [soup.find(name)]
    ([soup.title] and [soup.h1] are [soup.find] of that name), and of a tag
    its [.string] and its [.get_text(strip=True)]. *)
Record tag := Tag { tag_string : option pystr; get_text_strip : pystr }.
Record soup := Soup { find : pystr -> option tag; prettify : pystr }.

(** A Gemini response: [prompt_feedback.block_reason] and [text]. *)
Record gemini_response := GeminiResponse {
  block_reason : option pystr;
  gemini_text : pystr
}.

(** The properties of the page created in Notion. *)
Record properties := Properties {
  Title : pystr;
  OriginalURL : option pystr;
  SnapshotURL : pystr;
  Summary : pystr;
  Tags : list pystr;
  Created : pystr
}.

(** The calls the handler makes to the outside, in the order made. *)
Inductive event :=
| EvOpen (path : pystr)
| EvCreateFile (path : pystr)
| EvPagesGet (url : pystr)
| EvJinaGet (url : pystr)
| EvDirectGet (url : pystr)
| EvAI (prompt : pystr)
| EvNotionCreate (props : properties)
| EvSend (message : pystr)
| EvTask (message : pystr)
| EvSleep (seconds : Z).

Definition is_create (ev : event) : bool :=
  match ev with EvCreateFile _ => true | _ => false end.
Definition is_pages_get (ev : event) : bool :=
  match ev with EvPagesGet _ => true | _ => false end.
Definition is_jina_get (ev : event) : bool :=
  match ev with EvJinaGet _ => true | _ => false end.
Definition is_direct_get (ev : event) : bool :=
  match ev with EvDirectGet _ => true | _ => false end.
Definition is_ai (ev : event) : bool :=
  match ev with EvAI _ => true | _ => false end.
Definition is_notion_create (ev : event) : bool :=
  match ev with EvNotionCreate _ => true | _ => false end.
Definition is_send (ev : event) : bool :=
  match ev with EvSend _ => true | _ => false end.
Definition is_sleep (ev : event) : bool :=
  match ev with EvSleep _ => true | _ => false end.

(** The outside world: the n-th call of each kind (counted from 0) gets
    the n-th answer.  [github_create] answers one upload attempt
    ([get_repo] followed by [create_file]); [chat_completion] is
    [response.choices[0].message.content], which may be [None];
    [strftime_gmtime t] is [time.strftime('%Y-%m-%dT%H:%M:%S.000Z',
    time.gmtime(t))], which raises for a [t] out of the platform's
    range. *)
Record services := Services {
  open_read : pystr -> exn + pystr;
  github_create : nat -> option exn;
  pages_get : nat -> http_result;
  jina_get : nat -> http_result;
  direct_get : nat -> http_result;
  chat_completion : nat -> exn + option pystr;
  gemini_generate : nat -> exn + gemini_response;
  notion_create : nat -> exn + pystr;
  telegram_send : nat -> option exn;
  time_time : Z;
  BeautifulSoup : pystr -> soup;
  html2text_handle : pystr -> pystr;
  strftime_gmtime : Z -> exn + pystr
}.

(** ** The monad of the handler: a trace of calls, and exceptions *)

(** The calls made so far, newest first. *)
Definition world := list event.

Definition calls (kind : event -> bool) (w : world) : nat :=
  List.length (filter kind w).

Inductive result (A : Type) :=
| Ok (a : A)
| Raise (e : exn).
Arguments Raise {A} e.

Definition M (A : Type) := world -> result A * world.

Definition ret {A} (a : A) : M A := fun w => (Ok a, w).

Definition bind {A B} (m : M A) (k : A -> M B) : M B :=
  fun w => match m w with
           | (Ok a, w') => k a w'
           | (Raise e, w') => (Raise e, w')
           end.

Definition raise {A} (e : exn) : M A := fun w => (Raise e, w).

(** [try: m  except <classes accepted by catches> as e: handler e] *)
Definition try_except {A} (m : M A) (catches : exn -> bool)
    (handler : exn -> M A) : M A :=
  fun w => match m w with
           | (Ok a, w') => (Ok a, w')
           | (Raise e, w') =>
               if catches e then handler e w' else (Raise e, w')
           end.

Definition Exception (e : exn) : bool := true.

Definition emit (ev : event) : M unit := fun w => (Ok tt, ev :: w).

Definition of_sum {A} (r : exn + A) : M A :=
  match r with inl e => raise e | inr a => ret a end.

Declare Scope py_scope.
Delimit Scope py_scope with py.
Notation "x <- c ;; k" := (bind c (fun x => k))
  (at level 61, c at next level, right associativity) : py_scope.
Notation "c ;; k" := (bind c (fun _ => k))
  (at level 61, right associativity) : py_scope.
Notation "' pat <- c ;; k" := (bind c (fun x => match x with pat => k end))
  (at level 61, pat pattern, c at next level, right associativity) : py_scope.
Local Open Scope py_scope.

(** What the body of a [for] loop does to the enclosing function: it
    [return]s, or it goes on to the next iteration with the loop-carried
    locals [s]. *)
Inductive flow (A S : Type) :=
| Return (a : A)
| Continue (s : S).
Arguments Return {A S} a.
Arguments Continue {A S} s.

(** [n] iterations from index [i]; [None] when the loop runs out, which in
    Python is the function falling off its end. *)
Fixpoint for_from {A S} (n : nat) (i : Z) (s : S)
    (body : Z -> S -> M (flow A S)) : M (option A) :=
  match n with
  | O => ret None
  | S n' =>
      f <- body i s ;;
      match f with
      | Return a => ret (Some a)
      | Continue s' => for_from n' (i + 1) s' body
      end
  end.

(** [for i in range(stop): body] *)
Definition for_range {A S} (stop : Z) (s : S)
    (body : Z -> S -> M (flow A S)) : M (option A) :=
  for_from (Z.to_nat stop) 0 s body.

(** [time.sleep(seconds)] *)
Definition sleep (seconds : Z) : M unit := emit (EvSleep seconds).

Definition run {A} (m : M A) : result A * list event :=
  let (r, w) := m [] in (r, rev w).

(** ** [parse_filename] *)

(** [xs[i]]: an [IndexError] out of range. *)
Definition index {A} (xs : list A) (i : nat) : exn + A :=
  match nth_error xs i with
  | Some a => inr a
  | None => inl (Exn IndexError (lit "list index out of range"))
  end.

Record file_info := FileInfo { original_url : pystr }.

(** The body of the [try] of [parse_filename]: the name without what
    follows its last '.', then without what precedes its first '_' when it
    has one, then with every '$' turned into '/'. *)
Definition parse_filename_try (filename : pystr) : exn + pystr :=
  match index (rsplit1 46 filename) 0 with
  | inl e => inl e
  | inr name_without_ext =>
      match (if contains 95 name_without_ext
             then index (split1 95 name_without_ext) 1
             else inr name_without_ext) with
      | inl e => inl e
      | inr name_without_ext => inr (replace (lit "$") (lit "/") name_without_ext)
      end
  end.

(** The [except Exception] of [parse_filename]. *)
Definition parse_filename_except (r : exn + pystr) : file_info :=
  match r with
  | inr original_url => FileInfo original_url
  | inl _ => FileInfo (lit "")
  end.

Definition parse_filename (filename : pystr) : file_info :=
  parse_filename_except (parse_filename_try filename).

(** ** [WebClipperHandler] *)

(** [str(x)] of a value that may be [None], as an f-string prints it. *)
Definition str_of (o : option pystr) : pystr :=
  match o with Some s => s | None => lit "None" end.

(** Python truth of a string that may be [None]. *)
Definition truthy (o : option pystr) : bool :=
  match o with Some (_ :: _) => true | _ => false end.

(** What the extraction functions hand back: a text, or the pair that
    [get_page_content_by_bs] returns when it gives up. *)
Inductive page_content :=
| Text (s : pystr)
| Pair (title body : pystr).

(** The dict [process_file] passes to [save_to_notion]. *)
Record clip := Clip {
  clip_title : pystr;
  clip_original_url : option pystr;
  clip_snapshot_url : pystr;
  clip_summary : pystr;
  clip_tags : list pystr;
  clip_created_at : Z
}.

(** The dict [process_file] returns. *)
Record pipeline_result := PipelineResult {
  status : pystr;
  github_url : pystr;
  notion_url : option pystr
}.

Definition prompt_head : pystr := lit
"请为以下网页内容生成简短摘要和相关标签。

要求：
1. 无论原文是中文还是英文，都必须用中文回复
2. 摘要控制在100字以内
3. 生成3-5个中文标签
4. 严格按照以下格式返回：

摘要：[100字以内的中文摘要]
标签：tag1，tag2，tag3，tag4，tag5

网页内容：
".

(** The parse of the AI answer in [generate_summary_tags]: the last line
    that starts with each label wins. *)
Fixpoint parse_lines (lines : list pystr) (summary : pystr)
    (tags : list pystr) : pystr * list pystr :=
  match lines with
  | [] => (summary, tags)
  | line :: rest =>
      if startswith (lit "摘要：") line
      then parse_lines rest (strip (replace (lit "摘要：") (lit "") line)) tags
      else if startswith (lit "标签：") line
      then parse_lines rest summary
             (map strip (split 65292 (replace (lit "标签：") (lit "") line)))
      else parse_lines rest summary tags
  end.

Definition parse_summary_tags (result : pystr) : pystr * list pystr :=
  parse_lines (split 10 result) (lit "") [].

Definition is_nil {A} (xs : list A) : bool :=
  match xs with [] => true | _ :: _ => false end.

(** [get_page_content_by_md]: the first line that starts with "Title:". *)
Fixpoint first_title (lines : list pystr) : pystr :=
  match lines with
  | [] => lit "未知标题"
  | line :: rest =>
      if startswith (lit "Title:") line
      then strip (replace (lit "Title:") (lit "") line)
      else first_title rest
  end.

Definition get_page_content_by_md (md_content : option page_content)
  : M pystr :=
  match md_content with
  | Some (Text s) => ret (first_title (splitlines s))
  | Some (Pair _ _) =>
      raise (Exn AttributeError
               (lit "'tuple' object has no attribute 'splitlines'"))
  | None =>
      raise (Exn AttributeError
               (lit "'NoneType' object has no attribute 'splitlines'"))
  end.

(** The title search of [get_page_content_by_bs] on a parsed document. *)
Fixpoint first_heading (doc : soup) (tags : list pystr) : option pystr :=
  match tags with
  | [] => None
  | t :: rest =>
      match find doc t with
      | Some el => Some (get_text_strip el)
      | None => first_heading doc rest
      end
  end.

Definition bs_title (doc : soup) : option pystr :=
  let title := match find doc (lit "title") with
               | Some el => tag_string el
               | None => None
               end in
  let title := match find doc (lit "h1") with
               | Some el => if truthy title then title
                            else Some (get_text_strip el)
               | None => title
               end in
  if truthy title then title
  else match first_heading doc
               [lit "h2"; lit "h3"; lit "h4"; lit "h5"; lit "h6"] with
       | Some t => Some t
       | None => title
       end.

(** The [properties] built by [save_to_notion]. *)
Definition notion_properties (current_time : pystr) (data : clip)
  : properties :=
  let tags := clip_tags data in
  let tags := if is_nil tags then [lit "未分类"] else tags in
  {| Title := clip_title data;
     OriginalURL := if truthy (clip_original_url data)
                    then clip_original_url data else None;
     SnapshotURL := clip_snapshot_url data;
     Summary := clip_summary data;
     Tags := filter (fun tag => negb (is_nil (strip tag))) tags;
     Created := current_time |}.

Local Open Scope Z_scope.

Section Handler.

Variable cfg : config.
Variable svc : services.

(** The [kind]-th call so far is answered and recorded. *)
Definition call {A} (kind : event -> bool) (ev : event)
    (answer : nat -> result A) : M A :=
  fun w => (answer (calls kind w), ev :: w).

Definition of_failure (o : option exn) : result unit :=
  match o with None => Ok tt | Some e => Raise e end.

Definition of_http (r : http_result) : result (Z * pystr) :=
  match r with
  | Response status_code text => Ok (status_code, text)
  | HttpError e => Raise e
  end.

Definition result_of_sum {A} (r : exn + A) : result A :=
  match r with inl e => Raise e | inr a => Ok a end.

(** [await self.telegram_bot.send_message(...)] *)
Definition send_telegram_notification (message : pystr) : M unit :=
  call is_send (EvSend message)
       (fun n => of_failure (telegram_send svc n)).

(** [asyncio.create_task(self.send_telegram_notification(message))]: the
    task is only scheduled; what becomes of it never reaches the caller. *)
Definition create_task (message : pystr) : M unit := emit (EvTask message).

(** *** [upload_to_github] *)

(** One pass of the deploy poll: a GET of the published URL; a 200 returns
    the artifact from [upload_to_github], anything else waits 5 seconds.
    Only a [requests.RequestException] is caught here. *)
Definition deploy_check (filename github_url : pystr)
    (deploy_attempt : Z) (_ : unit) : M (flow (pystr * pystr) unit) :=
  let deploy_retry_interval := 5 in
  try_except
    ('(status_code, _) <-
        call is_pages_get (EvPagesGet github_url)
             (fun n => of_http (pages_get svc n)) ;;
     if status_code =? 200 then ret (Return (filename, github_url))
     else sleep deploy_retry_interval ;; ret (Continue tt))
    is_request_exception
    (fun e => sleep deploy_retry_interval ;; ret (Continue tt)).

Definition pages_url (repo_name filename : pystr) : pystr :=
  lit "https://" ++ github_pages_domain cfg ++ lit "/" ++ repo_name
    ++ lit "/clips/" ++ filename.

(** One pass of the [try] of the upload loop: the file is created, then
    the deploy poll runs; both ways out of the poll return the artifact. *)
Definition upload_attempt (filename content : pystr)
  : M (pystr * pystr) :=
  let file_path := lit "clips/" ++ filename in
  call is_create (EvCreateFile file_path)
       (fun n => of_failure (github_create svc n)) ;;
  repo_name <- of_sum (index (split 47%N (github_repo cfg)) 1%nat) ;;
  let github_url := pages_url repo_name filename in
  let max_deploy_retries := get (github_pages_max_retries cfg) 60 in
  deployed <- for_range max_deploy_retries tt
                (deploy_check filename github_url) ;;
  match deployed with
  | Some artifact => ret artifact
  | None => ret (filename, github_url)
  end.

(** The [except] of the upload loop: all but the last attempt wait
    [retry_delay] seconds and double it. *)
Definition upload_retry (filename content : pystr)
    (attempt : Z) (retry_delay : Z) : M (flow (pystr * pystr) Z) :=
  let max_retries := 5 in
  try_except
    (artifact <- upload_attempt filename content ;;
     ret (Return artifact))
    Exception
    (fun e =>
       if attempt <? max_retries - 1
       then sleep retry_delay ;; ret (Continue (retry_delay * 2))
       else raise (Exn RuntimeError
                     (lit "GitHub 上传失败: " ++ exn_str e))).

Definition upload_to_github (html_path : pystr)
  : M (option (pystr * pystr)) :=
  let filename := basename html_path in
  let max_retries := 5 in
  let retry_delay := 3 in
  content <- call (fun _ => false) (EvOpen html_path)
                  (fun _ => result_of_sum (open_read svc html_path)) ;;
  for_range max_retries retry_delay (upload_retry filename content).

(** *** Extraction *)

(** One attempt of [get_page_content_by_bs]. *)
Definition bs_attempt (url : pystr) (attempt : Z) (_ : unit)
  : M (flow page_content unit) :=
  try_except
    ('(status_code, text) <-
        call is_direct_get (EvDirectGet url)
             (fun n => of_http (direct_get svc n)) ;;
     if status_code =? 200 then
       let doc := BeautifulSoup svc text in
       let title := bs_title doc in
       let content := html2text_handle svc (prettify doc) in
       ret (Return (Text (lit "Title: " ++ str_of title
                            ++ [32; 10; 10; 32]%N ++ content)))
     else sleep 5 ;; ret (Continue tt))
    Exception
    (fun _ => sleep 5 ;; ret (Continue tt)).

Definition get_page_content_by_bs_from (url : pystr) (max_retries : Z)
  : M page_content :=
  found <- for_range max_retries tt (bs_attempt url) ;;
  match found with
  | Some page => ret page
  | None => ret (Pair (basename url) (lit ""))
  end.

Definition get_page_content_by_bs (url : pystr) : M page_content :=
  get_page_content_by_bs_from url 60.

(** One attempt of [url2md]: a 200 returns the text; another status goes
    straight to the next attempt; an exception waits 10 seconds. *)
Definition md_attempt (url : pystr) (attempt : Z) (_ : unit)
  : M (flow page_content unit) :=
  try_except
    (let md_url := lit "https://r.jina.ai/" ++ url in
     '(status_code, text) <-
        call is_jina_get (EvJinaGet md_url)
             (fun n => of_http (jina_get svc n)) ;;
     if status_code =? 200 then ret (Return (Text text))
     else ret (Continue tt))
    Exception
    (fun _ => sleep 10 ;; ret (Continue tt)).

Definition url2md_from (url : pystr) (max_retries : Z)
  : M (option page_content) :=
  try_except
    (for_range max_retries tt (md_attempt url))
    Exception
    (fun _ =>
       md_content <- get_page_content_by_bs url ;;
       ret (Some md_content)).

Definition url2md (url : pystr) : M (option page_content) :=
  url2md_from url 30.

(** *** [generate_summary_tags] *)

(** The provider branch: the text of the answer.  The Gemini branch
    raises on a blocked prompt and on a blank answer; the other three
    providers go through [chat.completions.create]. *)
Definition ai_result (prompt : pystr) : M (option pystr) :=
  match ai_provider cfg with
  | Gemini =>
      try_except
        (response <- call is_ai (EvAI prompt)
                          (fun n => result_of_sum (gemini_generate svc n)) ;;
         match block_reason response with
         | Some reason =>
             raise (Exn APIError (lit "Content blocked: " ++ reason))
         | None =>
             let result := gemini_text response in
             if is_nil (strip result)
             then raise (Exn APIError (lit "Empty response from Gemini"))
             else ret (Some result)
         end)
        Exception
        (fun e => raise e)
  | _ =>
      call is_ai (EvAI prompt)
           (fun n => result_of_sum (chat_completion svc n))
  end.

(** One pass of the inner [try]: the call, the parse, the format check. *)
Definition summary_attempt (prompt : pystr) : M (pystr * list pystr) :=
  result <- ai_result prompt ;;
  match result with
  | None =>
      raise (Exn AttributeError
               (lit "'NoneType' object has no attribute 'split'"))
  | Some result =>
      let '(summary, tags) := parse_summary_tags result in
      if is_nil summary || is_nil tags
      then raise (Exn ValueError (lit "AI 响应格式不正确"))
      else ret (summary, tags)
  end.

(** The prompt: [content[:5000]] between the fixed head and "...".  A
    [content] that is not a string makes this a [TypeError], raised inside
    the outer [try]. *)
Definition build_prompt (content : option page_content) : M pystr :=
  match content with
  | Some (Text s) => ret (prompt_head ++ firstn 5000 s ++ lit "...")
  | Some (Pair _ _) =>
      raise (Exn TypeError
               (lit "can only concatenate str (not " ++ [34]%N
                  ++ lit "tuple" ++ [34]%N ++ lit ") to str"))
  | None =>
      raise (Exn TypeError (lit "'NoneType' object is not subscriptable"))
  end.

(** One pass of the retry loop: the last attempt raises again, the
    others wait [2 ** attempt] seconds. *)
Definition summary_retry (prompt : pystr) (max_retries : Z)
    (attempt : Z) (_ : unit) : M (flow (pystr * list pystr) unit) :=
  try_except
    (answer <- summary_attempt prompt ;;
     ret (Return answer))
    Exception
    (fun e =>
       if attempt =? max_retries - 1 then raise e
       else sleep (2 ^ attempt) ;; ret (Continue tt)).

Definition generate_summary_tags (content : option page_content)
  : M (option (pystr * list pystr)) :=
  try_except
    (prompt <- build_prompt content ;;
     let max_retries := get (openai_max_retries cfg) 3 in
     for_range max_retries tt (summary_retry prompt max_retries))
    Exception
    (fun e =>
       (if get (notify_on_ai_error cfg) true
        then create_task (lit "⚠️ AI 服务失效提醒" ++ [10; 10]%N
                            ++ lit "错误信息：" ++ exn_str e)
        else ret tt) ;;
       if get (skip_ai_on_error cfg) true
       then ret (Some (get (default_summary cfg) (lit "无法生成摘要"),
                       get (default_tags cfg) [lit "未分类"]))
       else raise e).

(** *** [save_to_notion] *)

(** The log of the [except] of [save_to_notion]:
    [if hasattr(e, 'response'): logger.error(f"... {e.response.text}")].
    It raises an [AttributeError] when the attribute is there and holds
    [None]. *)
Definition log_response (e : exn) : M unit :=
  match exn_response e with
  | Some None =>
      raise (Exn AttributeError
               (lit "'NoneType' object has no attribute 'text'"))
  | Some (Some _) => ret tt
  | None => ret tt
  end.

Definition save_to_notion (data : clip) : M (option pystr) :=
  let max_retries := 3 in
  let retry_delay := 2 in
  for_range max_retries tt (fun attempt _ =>
    try_except
      (current_time <- of_sum (strftime_gmtime svc (clip_created_at data)) ;;
       let properties := notion_properties current_time data in
       url <- call is_notion_create (EvNotionCreate properties)
                   (fun n => result_of_sum (notion_create svc n)) ;;
       ret (Return url))
      Exception
      (fun e =>
         log_response e ;;
         if attempt <? max_retries - 1
         then
           let sleep_time := retry_delay * 2 ^ attempt in
           sleep sleep_time ;; ret (Continue tt)
         else
           let error_msg := lit "❌ Notion 保存失败: " ++ exn_str e in
           create_task error_msg ;;
           if get (skip_notion_on_error cfg) true
           then ret (Return (lit "https://www.notion.so/error-saving"))
           else raise e)).

(** *** [process_file] *)

(** Unpacking [a, b = value]: a [TypeError] when the value is [None]. *)
Definition unpack {A} (o : option A) : M A :=
  match o with
  | Some a => ret a
  | None =>
      raise (Exn TypeError
               (lit "cannot unpack non-iterable NoneType object"))
  end.

Definition notification_text (title summary original_url github_url : pystr)
    (notion_url : option pystr) : pystr :=
  lit "✨ 新的网页剪藏" ++ [10; 10]%N
  ++ lit "📑 " ++ title ++ [10; 10]%N
  ++ lit "📝 " ++ summary ++ [10; 10]%N
  ++ lit "🔗 原始链接：" ++ original_url ++ [10]%N
  ++ lit "📚 快照链接：" ++ github_url ++ [10]%N
  ++ lit "📚 Notion笔记: " ++ str_of notion_url.

(** The [try] of [process_file]. *)
Definition process_file_try (file_path original_url : pystr)
  : M pipeline_result :=
  uploaded <- upload_to_github file_path ;;
  '(filename, github_url) <- unpack uploaded ;;
  md_content <- url2md github_url ;;
  title <- get_page_content_by_md md_content ;;
  let original_url :=
    if is_nil original_url
    then (let 'FileInfo url := parse_filename filename in url)
    else original_url in
  generated <- generate_summary_tags md_content ;;
  '(summary, tags) <- unpack generated ;;
  notion_url <- save_to_notion
    {| clip_title := title;
       clip_original_url := Some original_url;
       clip_snapshot_url := github_url;
       clip_summary := summary;
       clip_tags := tags;
       clip_created_at := time_time svc |} ;;
  let notification :=
    notification_text title summary original_url github_url notion_url in
  send_telegram_notification notification ;;
  ret {| status := lit "success";
         github_url := github_url;
         notion_url := notion_url |}.

(** [process_file]: any exception of the body is reported through
    Telegram, awaited in the handler, and then raised again. *)
Definition process_file (file_path original_url : pystr)
  : M pipeline_result :=
  try_except
    (process_file_try file_path original_url)
    Exception
    (fun e =>
       let error_msg := lit "❌ 处理失败: " ++ exn_str e in
       send_telegram_notification error_msg ;;
       raise e).

End Handler.

(** ** Concrete runs *)

Module Scenario.

Definition cfg : config :=
  {| github_repo := lit "alice/web";
     github_pages_domain := lit "alice.github.io";
     github_pages_max_retries := None;
     ai_provider := OpenAI;
     openai_max_retries := None;
     notify_on_ai_error := None;
     skip_ai_on_error := None;
     default_summary := None;
     default_tags := None;
     skip_notion_on_error := None |}.

Definition nl : pystr := [10%N].

(** A document with no [title] and no heading. *)
Definition bare_soup (text : pystr) : soup :=
  {| find := fun _ => None; prettify := text |}.

Definition page : pystr := lit "<html><p>hello</p></html>".

Definition ok_page : http_result := Response 200 page.

Definition ok_markdown : http_result :=
  Response 200 (lit "Title: Example Domain" ++ nl ++ nl ++ lit "hello").

Definition ok_answer : exn + option pystr :=
  inr (Some (lit "摘要：示例页面" ++ nl ++ lit "标签：示例，测试")).

(** The outside world, from the answers of GitHub, of the three HTTP
    endpoints, of the chat provider and of Telegram; the rest is fixed. *)
Definition outside (github : nat -> option exn)
    (pages jina direct : nat -> http_result)
    (chat : nat -> exn + option pystr)
    (telegram : nat -> option exn) : services :=
  {| open_read := fun _ => inr page;
     github_create := github;
     pages_get := pages;
     jina_get := jina;
     direct_get := direct;
     chat_completion := chat;
     gemini_generate := fun _ =>
       inr (GeminiResponse None
              (lit "摘要：示例页面" ++ nl ++ lit "标签：示例，测试"));
     notion_create := fun _ => inr (lit "https://www.notion.so/page1");
     telegram_send := telegram;
     time_time := 0;
     BeautifulSoup := bare_soup;
     html2text_handle := fun s => s;
     strftime_gmtime := fun _ => inr (lit "1970-01-01T00:00:00.000Z") |}.

(** Every service answers well at once. *)
Definition happy : services :=
  outside (fun _ => None) (fun _ => ok_page) (fun _ => ok_markdown)
          (fun _ => ok_page) (fun _ => ok_answer) (fun _ => None).

Definition unavailable : exn := Exn GithubException (lit "503").
Definition timed_out : exn := Exn TelegramError (lit "Timed out").

(** GitHub refuses every upload. *)
Definition github_down : services :=
  outside (fun _ => Some unavailable) (fun _ => ok_page)
          (fun _ => ok_markdown) (fun _ => ok_page) (fun _ => ok_answer)
          (fun _ => None).

(** GitHub refuses every upload and Telegram delivers nothing. *)
Definition github_and_telegram_down : services :=
  outside (fun _ => Some unavailable) (fun _ => ok_page)
          (fun _ => ok_markdown) (fun _ => ok_page) (fun _ => ok_answer)
          (fun _ => Some timed_out).

(** Only Telegram fails. *)
Definition telegram_down : services :=
  outside (fun _ => None) (fun _ => ok_page) (fun _ => ok_markdown)
          (fun _ => ok_page) (fun _ => ok_answer)
          (fun _ => Some timed_out).

(** The first upload fails, and the published page never answers 200. *)
Definition pages_stalled : services :=
  outside (fun n => match n with O => Some unavailable | S _ => None end)
          (fun _ => Response 404 (lit "")) (fun _ => ok_markdown)
          (fun _ => ok_page) (fun _ => ok_answer) (fun _ => None).

(** The markdown renderer answers 503 to every request. *)
Definition renderer_down : services :=
  outside (fun _ => None) (fun _ => ok_page)
          (fun _ => Response 503 (lit "")) (fun _ => ok_page)
          (fun _ => ok_answer) (fun _ => None).

(** The published page answers 404 to every direct request. *)
Definition site_down : services :=
  outside (fun _ => None) (fun _ => ok_page) (fun _ => ok_markdown)
          (fun _ => Response 404 (lit "")) (fun _ => ok_answer)
          (fun _ => None).

(** The AI answers with a summary and a tag line that names no tag. *)
Definition blank_tags : services :=
  outside (fun _ => None) (fun _ => ok_page) (fun _ => ok_markdown)
          (fun _ => ok_page)
          (fun _ => inr (Some (lit "摘要：好文" ++ nl ++ lit "标签：")))
          (fun _ => None).

(** A connection error of [requests]: its [response] attribute is
    [None]. *)
Definition no_response : exn :=
  MkExn RequestException (lit "Connection refused") (Some None).

(** The error of [time.gmtime] on a timestamp out of range. *)
Definition out_of_range : exn :=
  Exn OSError (lit "Value too large for defined data type").

(** The chat provider raises at every call. *)
Definition ai_down : services :=
  outside (fun _ => None) (fun _ => ok_page) (fun _ => ok_markdown)
          (fun _ => ok_page) (fun _ => inl unavailable) (fun _ => None).

(** The configuration with [openai_max_retries] set to 0. *)
Definition cfg_no_retries : config :=
  {| github_repo := github_repo cfg;
     github_pages_domain := github_pages_domain cfg;
     github_pages_max_retries := None;
     ai_provider := OpenAI;
     openai_max_retries := Some 0;
     notify_on_ai_error := None;
     skip_ai_on_error := None;
     default_summary := None;
     default_tags := None;
     skip_notion_on_error := None |}.

(** The happy world, but for the answers of Notion. *)
Definition outside_notion (notion : nat -> exn + pystr) : services :=
  {| open_read := open_read happy;
     github_create := github_create happy;
     pages_get := pages_get happy;
     jina_get := jina_get happy;
     direct_get := direct_get happy;
     chat_completion := chat_completion happy;
     gemini_generate := gemini_generate happy;
     notion_create := notion;
     telegram_send := telegram_send happy;
     time_time := time_time happy;
     BeautifulSoup := BeautifulSoup happy;
     html2text_handle := html2text_handle happy;
     strftime_gmtime := strftime_gmtime happy |}.

(** The happy world, but no timestamp can be formatted. *)
Definition clock_overflow : services :=
  {| open_read := open_read happy;
     github_create := github_create happy;
     pages_get := pages_get happy;
     jina_get := jina_get happy;
     direct_get := direct_get happy;
     chat_completion := chat_completion happy;
     gemini_generate := gemini_generate happy;
     notion_create := notion_create happy;
     telegram_send := telegram_send happy;
     time_time := time_time happy;
     BeautifulSoup := BeautifulSoup happy;
     html2text_handle := html2text_handle happy;
     strftime_gmtime := fun _ => inl out_of_range |}.

Definition a_clip : clip :=
  {| clip_title := lit "Example Domain";
     clip_original_url := Some (lit "https://example.com/page");
     clip_snapshot_url := lit "https://alice.github.io/web/clips/x.html";
     clip_summary := lit "示例页面";
     clip_tags := [lit "示例"];
     clip_created_at := 0 |}.

Definition html_path : pystr := lit "uploads/0123456789abcdef_page.html".

Definition snapshot_url : pystr :=
  lit "https://alice.github.io/web/clips/0123456789abcdef_page.html".

End Scenario.

(** ** Traces of the retry loops *)

(** [n] copies of a piece of trace, one after the other. *)
Fixpoint times {A} (n : nat) (l : list A) : list A :=
  match n with
  | O => []
  | S k => l ++ times k l
  end.

(** No poll of the published URL is ever answered by a 200: each gets
    another status or a network error. *)
Definition never_deployed (svc : services) : Prop :=
  forall n, match pages_get svc n with
            | Response status_code _ => status_code <> 200
            | HttpError e => is_request_exception e = true
            end.

(** The trace of one poll that misses, newest first. *)
Definition missed_poll (github_url : pystr) : list event :=
  [EvSleep 5; EvPagesGet github_url].

(** The trace left by [k] failed upload attempts that were retried, the
    first of them waiting [retry_delay] seconds; newest first, on top of
    [w]. *)
Fixpoint failed_uploads (k : nat) (retry_delay : Z) (file_path : pystr)
    (w : world) : world :=
  match k with
  | O => w
  | S k' =>
      failed_uploads k' (retry_delay * 2) file_path
        (EvSleep retry_delay :: EvCreateFile file_path :: w)
  end.

(** The renderer never answers 200. *)
Definition never_rendered (svc : services) : Prop :=
  forall n, match jina_get svc n with
            | Response status_code _ => status_code <> 200
            | HttpError _ => True
            end.

(** No direct request for the page is answered by a 200. *)
Definition never_served (svc : services) : Prop :=
  forall n, match direct_get svc n with
            | Response status_code _ => status_code <> 200
            | HttpError _ => True
            end.

(** The error [upload_to_github] raises after its last attempt. *)
Definition publish_error (e : exn) : exn :=
  Exn RuntimeError (lit "GitHub 上传失败: " ++ exn_str e).

(** An answer of an HTTP endpoint that is not a 200. *)
Definition not_ok (r : http_result) : Prop :=
  match r with
  | Response status_code _ => status_code <> 200
  | HttpError _ => True
  end.

(** An answer of the chat provider that an attempt of
    [generate_summary_tags] rejects: an exception, no content, or a text
    in which the parse finds no summary or no tag line. *)
Definition rejected (r : exn + option pystr) : Prop :=
  match r with
  | inl _ => True
  | inr None => True
  | inr (Some text) =>
      fst (parse_summary_tags text) = [] \/ snd (parse_summary_tags text) = []
  end.

(** The trace left by [k] rejected attempts that were retried, the first
    of them with index [attempt]; newest first, on top of [w]. *)
Fixpoint failed_summaries (k : nat) (attempt : Z) (prompt : pystr)
    (w : world) : world :=
  match k with
  | O => w
  | S k' =>
      failed_summaries k' (attempt + 1) prompt
        (EvSleep (2 ^ attempt) :: EvAI prompt :: w)
  end.

(** An answer to a deploy poll that makes the poll go on: a status other
    than 200, or a [requests.RequestException]. *)
Definition missed (r : http_result) : Prop :=
  match r with
  | Response status_code _ => status_code <> 200
  | HttpError e => is_request_exception e = true
  end.

(** A kind of call that the renderer loop does not make. *)
Definition foreign (kind : event -> bool) : Prop :=
  (forall url, kind (EvJinaGet url) = false)
  /\ (forall seconds, kind (EvSleep seconds) = false).

(** ** Facts about the string operations *)

Section StringFacts.

Local Open Scope nat_scope.

Lemma contains_app c a b :
  contains c (a ++ b) = contains c a || contains c b.
Proof. unfold contains. apply existsb_app. Qed.

Lemma contains_cons c x s :
  contains c (x :: s) = N.eqb c x || contains c s.
Proof. reflexivity. Qed.

(** [rsplit] always yields a first piece. *)
Lemma rsplit1_first c s : exists h t, rsplit1 c s = h :: t.
Proof.
  induction s as [|x s IH]; simpl.
  - now exists [], [].
  - destruct (contains c s).
    + destruct IH as (h & t & ->). now exists (x :: h), t.
    + destruct (N.eqb x c); eauto.
Qed.

(** A string that contains the separator splits into two pieces. *)
Lemma split1_second c s :
  contains c s = true -> exists h t, split1 c s = [h; t].
Proof.
  induction s as [|x s IH]; simpl; [discriminate|].
  rewrite N.eqb_sym. destruct (N.eqb x c) eqn:E; simpl.
  - intros _. now exists [], s.
  - intros H. destruct (IH H) as (h & t & ->). now exists (x :: h), t.
Qed.

Lemma split1_at c p b :
  contains c p = false -> split1 c (p ++ c :: b) = [p; b].
Proof.
  induction p as [|x p IH]; simpl.
  - now rewrite N.eqb_refl.
  - rewrite N.eqb_sym. destruct (N.eqb x c); simpl; [discriminate|].
    intros H. now rewrite (IH H).
Qed.

Lemma rsplit1_none c s : contains c s = false -> rsplit1 c s = [s].
Proof.
  destruct s as [|x s]; simpl; [reflexivity|].
  rewrite N.eqb_sym. destruct (N.eqb x c); simpl; [discriminate|].
  now intros ->.
Qed.

Lemma rsplit1_at c a e :
  contains c e = false -> rsplit1 c (a ++ c :: e) = [a; e].
Proof.
  intros He. induction a as [|x a IH]; simpl.
  - now rewrite He, N.eqb_refl.
  - rewrite contains_app, contains_cons, N.eqb_refl, orb_true_r.
    now rewrite IH.
Qed.

(** Replacing a one-character string by another is a map. *)
Lemma replace_one c d s :
  replace [c] [d] s = map (fun x => if N.eqb x c then d else x) s.
Proof.
  unfold replace. induction s as [|x s IH]; simpl; [reflexivity|].
  rewrite N.eqb_sym. destruct (N.eqb x c); simpl; now rewrite <- IH.
Qed.

End StringFacts.

(** ** [parse_filename] *)

(** C10: [parse_filename] is total: the body of its [try] raises on no
    filename, so it returns a dict with the key [original_url] whatever
    the name (with or without extension, underscore or '$'); and its
    [except] branch answers any failure with the empty string. *)
Theorem parse_filename_total :
  (forall filename,
      exists url, parse_filename_try filename = inr url
                  /\ parse_filename filename = FileInfo url)
  /\ (forall e, parse_filename_except (inl e) = FileInfo (lit "")).
Proof.
  split; [|reflexivity].
  intros filename. unfold parse_filename, parse_filename_try.
  destruct (rsplit1_first 46 filename) as (h & t & ->). simpl.
  destruct (contains 95 h) eqn:E.
  - destruct (split1_second 95 h E) as (a & b & ->). simpl. eauto.
  - eauto.
Qed.

(** C6, as stated: the stored name [abc123_https:$$example.com$page] does
    not decode to [https://example.com/page]; what follows its last '.' is
    taken for the extension, and the result is [https://example]. *)
Lemma parse_filename_spec_example_fails :
  parse_filename (lit "abc123_https:$$example.com$page")
    = FileInfo (lit "https://example")
  /\ original_url (parse_filename (lit "abc123_https:$$example.com$page"))
     <> lit "https://example.com/page".
Proof. split; [reflexivity | discriminate]. Qed.

(** C6, amended: of a stored name [prefix_body.ext], with no '_' in the
    prefix and no '.' in the extension, the decoder drops the extension
    and the prefix up to the first '_' and maps every '$' of the body to
    '/'; so [abc123_https:$$example.com$page.html] decodes to
    [https://example.com/page]. *)
Theorem parse_filename_decodes (prefix body ext : pystr) :
  contains 95 prefix = false ->
  contains 46 ext = false ->
  parse_filename (prefix ++ lit "_" ++ body ++ lit "." ++ ext)
    = FileInfo (map (fun x => if N.eqb x 36 then 47%N else x) body).
Proof.
  intros Hp He. unfold parse_filename, parse_filename_try.
  change (lit "_" ++ body ++ lit "." ++ ext)
    with (95%N :: body ++ 46%N :: ext).
  replace (prefix ++ 95%N :: body ++ 46%N :: ext)
    with ((prefix ++ 95%N :: body) ++ 46%N :: ext)
    by (rewrite <- app_assoc; reflexivity).
  rewrite rsplit1_at by exact He. cbv [index nth_error].
  rewrite contains_app, contains_cons. simpl orb.
  rewrite orb_true_r, split1_at by exact Hp. cbv [parse_filename_except].
  f_equal.
  change (lit "$") with [36%N]. change (lit "/") with [47%N].
  now rewrite replace_one.
Qed.

Lemma parse_filename_decodes_witness :
  parse_filename (lit "abc123_https:$$example.com$page.html")
    = FileInfo (lit "https://example.com/page").
Proof.
  exact (parse_filename_decodes (lit "abc123") (lit "https:$$example.com$page")
           (lit "html") eq_refl eq_refl).
Defined.

(** ** [save_to_notion] *)

(** The original-URL field of the payload: null for an absent URL, the
    string itself otherwise. *)
Lemma notion_properties_original_url current_time data :
  OriginalURL (notion_properties current_time data)
  = match clip_original_url data with
    | Some (c :: u) => Some (c :: u)
    | _ => None
    end.
Proof.
  unfold notion_properties. simpl.
  destruct (clip_original_url data) as [[|c u]|]; reflexivity.
Qed.

(** C8: in every create request that [save_to_notion] sends, at any of
    its attempts, the original-URL field of the payload is null when the
    clip's original URL is [None] or the empty string, never the empty
    string, and is the URL unchanged when there is one; and when the
    timestamp can be formatted, such a request is sent. *)
Theorem save_to_notion_original_url cfg svc data w :
  let w' := snd (save_to_notion cfg svc data w) in
  let stored := match clip_original_url data with
                | Some (c :: u) => Some (c :: u)
                | _ => None
                end in
  (forall props,
      In (EvNotionCreate props) w' ->
      In (EvNotionCreate props) w \/ OriginalURL props = stored)
  /\ stored <> Some (lit "")
  /\ (clip_original_url data = None \/ clip_original_url data = Some (lit "")
      -> stored = None)
  /\ (forall url, url <> lit "" -> clip_original_url data = Some url ->
                  stored = Some url)
  /\ (forall current_time,
        strftime_gmtime svc (clip_created_at data) = inr current_time ->
        In (EvNotionCreate (notion_properties current_time data)) w'
        /\ OriginalURL (notion_properties current_time data) = stored).
Proof.
  intros w' stored. split; [|split; [|split; [|split]]].
  - subst w'. unfold save_to_notion, for_range.
    change (Z.to_nat 3) with 3%nat.
    cbv [for_from bind try_except call ret Exception sleep create_task emit
         raise of_sum log_response].
    destruct (strftime_gmtime svc (clip_created_at data)) as [e0|t];
      repeat match goal with
             | |- context [match exn_response ?e with _ => _ end] =>
                 destruct (exn_response e) as [[?|]|]; cbn
             | |- context [notion_create ?s ?n] =>
                 destruct (notion_create s n); cbn
             | |- context [get (skip_notion_on_error ?c) true] =>
                 destruct (get (skip_notion_on_error c) true); cbn
             end;
      intros props H; cbn in H;
      repeat (destruct H as [H|H];
              [ first [ discriminate H
                      | injection H as <-; right;
                        apply notion_properties_original_url ] | ]);
      now left.
  - subst stored. destruct (clip_original_url data) as [[|c u]|];
      discriminate.
  - subst stored. intros [-> | ->]; reflexivity.
  - subst stored. intros url Hn ->. destruct url; [now elim Hn | reflexivity].
  - intros t Ht. split; [|apply notion_properties_original_url].
    subst w'. unfold save_to_notion, for_range.
    change (Z.to_nat 3) with 3%nat.
    cbv [for_from bind try_except call ret Exception sleep create_task emit
         raise of_sum log_response].
    rewrite Ht.
    repeat match goal with
           | |- context [match exn_response ?e with _ => _ end] =>
               destruct (exn_response e) as [[?|]|]; cbn
           | |- context [notion_create ?s ?n] =>
               destruct (notion_create s n); cbn
           | |- context [get (skip_notion_on_error ?c) true] =>
               destruct (get (skip_notion_on_error c) true); cbn
           end;
      auto 12.
Qed.

Lemma save_to_notion_original_url_witness :
  In (EvNotionCreate
        (notion_properties (lit "1970-01-01T00:00:00.000Z") Scenario.a_clip))
     (snd (save_to_notion Scenario.cfg Scenario.happy Scenario.a_clip []))
  /\ OriginalURL
       (notion_properties (lit "1970-01-01T00:00:00.000Z") Scenario.a_clip)
     = Some (lit "https://example.com/page").
Proof.
  destruct (save_to_notion_original_url Scenario.cfg Scenario.happy
              Scenario.a_clip []) as (_ & _ & _ & _ & H).
  exact (H (lit "1970-01-01T00:00:00.000Z") eq_refl).
Defined.

(** ** The deploy poll of [upload_to_github] *)

Lemma times_shift {A} (l w : list A) n :
  times n l ++ l ++ w = l ++ times n l ++ w.
Proof.
  induction n as [|n IH]; simpl; [reflexivity|].
  now rewrite <- !app_assoc, IH.
Qed.

Lemma calls_app kind (a b : world) :
  calls kind (a ++ b) = (calls kind a + calls kind b)%nat.
Proof. unfold calls. now rewrite filter_app, length_app. Qed.

Lemma calls_times kind n (l : world) :
  calls kind (times n l) = (n * calls kind l)%nat.
Proof.
  induction n as [|n IH]; [reflexivity|].
  cbn [times]. rewrite calls_app, IH. reflexivity.
Qed.

Section DeployPoll.

Variable cfg : config.
Variable svc : services.

Lemma deploy_check_miss filename github_url i w :
  never_deployed svc ->
  deploy_check svc filename github_url i tt w
  = (Ok (Continue tt), missed_poll github_url ++ w).
Proof.
  intros H. unfold deploy_check, try_except, bind, call, of_http.
  specialize (H (calls is_pages_get w)).
  destruct (pages_get svc (calls is_pages_get w)) as [code text|e].
  - apply Z.eqb_neq in H. now rewrite H.
  - now rewrite H.
Qed.

(** A poll that never sees a 200 runs all its iterations and falls out of
    the loop. *)
Lemma deploy_poll_exhausts filename github_url :
  never_deployed svc ->
  forall n i w,
    for_from n i tt (deploy_check svc filename github_url) w
    = (Ok None, times n (missed_poll github_url) ++ w).
Proof.
  intros H. induction n as [|n IH]; intros i w; [reflexivity|].
  cbn [for_from]. unfold bind at 1. rewrite deploy_check_miss by exact H.
  rewrite IH. cbn [times]. now rewrite <- app_assoc, times_shift.
Qed.

(** One upload attempt whose file creation succeeds and whose poll never
    sees a 200 returns the artifact after all the polls. *)
Lemma upload_attempt_timeout filename content repo_name w :
  github_create svc (calls is_create w) = None ->
  index (split 47%N (github_repo cfg)) 1%nat = inr repo_name ->
  never_deployed svc ->
  upload_attempt cfg svc filename content w
  = (Ok (filename, pages_url cfg repo_name filename),
     times (Z.to_nat (get (github_pages_max_retries cfg) 60))
           (missed_poll (pages_url cfg repo_name filename))
       ++ EvCreateFile (lit "clips/" ++ filename) :: w).
Proof.
  intros Hc Hr Hp. unfold upload_attempt.
  unfold bind at 1. unfold call at 1. rewrite Hc. cbn [of_failure].
  rewrite Hr. cbn [of_sum]. unfold bind at 1. unfold ret at 1.
  unfold bind, for_range. now rewrite deploy_poll_exhausts by exact Hp.
Qed.

End DeployPoll.

(** ** The upload loop of [upload_to_github] *)

Lemma calls_create_failed k d p w :
  calls is_create (failed_uploads k d p w) = (k + calls is_create w)%nat.
Proof.
  revert d w. induction k as [|k IH]; intros d w; [reflexivity|].
  cbn [failed_uploads]. rewrite IH. unfold calls. cbn. lia.
Qed.

Lemma calls_other_failed kind k d p w :
  (forall path, kind (EvCreateFile path) = false) ->
  (forall s, kind (EvSleep s) = false) ->
  calls kind (failed_uploads k d p w) = calls kind w.
Proof.
  intros Hc Hs. revert d w.
  induction k as [|k IH]; intros d w; [reflexivity|].
  cbn [failed_uploads]. rewrite IH. unfold calls. cbn.
  now rewrite Hc, Hs.
Qed.

Section UploadLoop.

Variable cfg : config.
Variable svc : services.

Lemma upload_attempt_failed filename content e w :
  github_create svc (calls is_create w) = Some e ->
  upload_attempt cfg svc filename content w
  = (Raise e, EvCreateFile (lit "clips/" ++ filename) :: w).
Proof.
  intros Hc. unfold upload_attempt, bind, call. now rewrite Hc.
Qed.

(** An attempt whose file creation fails, and that is not the last one,
    waits and doubles the delay. *)
Lemma upload_retry_failed filename content attempt retry_delay w :
  github_create svc (calls is_create w) <> None ->
  attempt < 4 ->
  upload_retry cfg svc filename content attempt retry_delay w
  = (Ok (Continue (retry_delay * 2)),
     EvSleep retry_delay :: EvCreateFile (lit "clips/" ++ filename) :: w).
Proof.
  intros Hc Ha.
  destruct (github_create svc (calls is_create w)) as [e|] eqn:E;
    [|congruence].
  unfold upload_retry, try_except, bind.
  rewrite (upload_attempt_failed filename content w E).
  apply Z.ltb_lt in Ha. change (5 - 1) with 4. cbn [Exception].
  now rewrite Ha.
Qed.

(** The last attempt, when its file creation fails, raises the
    [RuntimeError] of [upload_to_github] without waiting. *)
Lemma upload_retry_last filename content retry_delay e w :
  github_create svc (calls is_create w) = Some e ->
  upload_retry cfg svc filename content 4 retry_delay w
  = (Raise (Exn RuntimeError (lit "GitHub 上传失败: " ++ exn_str e)),
     EvCreateFile (lit "clips/" ++ filename) :: w).
Proof.
  intros Hc. unfold upload_retry, try_except, bind.
  now rewrite (upload_attempt_failed filename content w Hc).
Qed.

Lemma upload_retry_timeout filename content repo_name attempt retry_delay w :
  github_create svc (calls is_create w) = None ->
  index (split 47%N (github_repo cfg)) 1%nat = inr repo_name ->
  never_deployed svc ->
  upload_retry cfg svc filename content attempt retry_delay w
  = (Ok (Return (filename, pages_url cfg repo_name filename)),
     times (Z.to_nat (get (github_pages_max_retries cfg) 60))
           (missed_poll (pages_url cfg repo_name filename))
       ++ EvCreateFile (lit "clips/" ++ filename) :: w).
Proof.
  intros Hc Hr Hp. unfold upload_retry, try_except. unfold bind.
  now rewrite (upload_attempt_timeout cfg filename content w Hc Hr Hp).
Qed.

(** After [k] failed attempts the file is created, and the poll never
    sees a 200: the loop returns the artifact. *)
Lemma upload_loop_timeout filename content repo_name :
  index (split 47%N (github_repo cfg)) 1%nat = inr repo_name ->
  never_deployed svc ->
  forall k n attempt retry_delay w,
    (k < n)%nat ->
    attempt + Z.of_nat k <= 4 ->
    (forall i, (i < k)%nat ->
               github_create svc (calls is_create w + i) <> None) ->
    github_create svc (calls is_create w + k) = None ->
    for_from n attempt retry_delay (upload_retry cfg svc filename content) w
    = (Ok (Some (filename, pages_url cfg repo_name filename)),
       times (Z.to_nat (get (github_pages_max_retries cfg) 60))
             (missed_poll (pages_url cfg repo_name filename))
         ++ EvCreateFile (lit "clips/" ++ filename)
         :: failed_uploads k retry_delay (lit "clips/" ++ filename) w).
Proof.
  intros Hr Hp. induction k as [|k IH]; intros n attempt d w Hn Ha Hf Hc.
  - destruct n as [|n]; [lia|]. cbn [for_from failed_uploads].
    unfold bind. rewrite Nat.add_0_r in Hc.
    now rewrite (upload_retry_timeout filename content attempt d w Hc Hr Hp).
  - destruct n as [|n]; [lia|]. cbn [for_from failed_uploads].
    unfold bind at 1. rewrite upload_retry_failed.
    + apply IH; try lia.
      * intros i Hi. specialize (Hf (S i) ltac:(lia)).
        unfold calls in *. cbn. now rewrite <- plus_n_Sm in Hf.
      * unfold calls in *. cbn. now rewrite <- plus_n_Sm in Hc.
    + specialize (Hf 0%nat ltac:(lia)). now rewrite Nat.add_0_r in Hf.
    + lia.
Qed.

End UploadLoop.

(** C4: once the file is created (at the first upload attempt or after
    [k < 5] failed ones), a deploy poll in which no attempt sees HTTP 200,
    each getting another status or a network error, does not raise:
    [upload_to_github] returns the filename and the public URL, after
    exactly the configured number of poll attempts (60 by default), each
    followed by a wait of 5 seconds, and without creating the file again. *)
Theorem deploy_timeout_returns_artifact
    cfg svc html_path content repo_name (k : nat) :
  open_read svc html_path = inr content ->
  index (split 47%N (github_repo cfg)) 1%nat = inr repo_name ->
  (k < 5)%nat ->
  (forall i, (i < k)%nat -> github_create svc i <> None) ->
  github_create svc k = None ->
  never_deployed svc ->
  0 <= get (github_pages_max_retries cfg) 60 ->
  let filename := basename html_path in
  let github_url := pages_url cfg repo_name filename in
  let ceiling := get (github_pages_max_retries cfg) 60 in
  let out := upload_to_github cfg svc html_path [] in
  fst out = Ok (Some (filename, github_url))
  /\ snd out
     = times (Z.to_nat ceiling) [EvSleep 5; EvPagesGet github_url]
         ++ EvCreateFile (lit "clips/" ++ filename)
         :: failed_uploads k 3 (lit "clips/" ++ filename) [EvOpen html_path]
  /\ Z.of_nat (calls is_pages_get (snd out)) = ceiling
  /\ calls is_create (snd out) = S k.
Proof.
  intros Ho Hr Hk Hf Hc Hp Hz filename github_url ceiling out.
  assert (E : out
    = (Ok (Some (filename, github_url)),
       times (Z.to_nat ceiling) (missed_poll github_url)
         ++ EvCreateFile (lit "clips/" ++ filename)
         :: failed_uploads k 3 (lit "clips/" ++ filename)
              [EvOpen html_path])).
  { subst out. unfold upload_to_github, for_range.
    unfold bind at 1. unfold call at 1. rewrite Ho. cbn [result_of_sum].
    change (Z.to_nat 5) with 5%nat.
    apply upload_loop_timeout; try assumption; try lia. }
  rewrite E. cbn [fst snd]. repeat split.
  - rewrite calls_app, calls_times. cbn [missed_poll].
    replace (calls is_pages_get [EvSleep 5; EvPagesGet github_url])
      with 1%nat by reflexivity.
    replace (calls is_pages_get
               (EvCreateFile (lit "clips/" ++ filename)
                :: failed_uploads k 3 (lit "clips/" ++ filename)
                     [EvOpen html_path]))
      with (calls is_pages_get
              (failed_uploads k 3 (lit "clips/" ++ filename)
                 [EvOpen html_path])) by reflexivity.
    rewrite calls_other_failed by reflexivity.
    unfold calls, missed_poll. cbn [filter is_pages_get List.length].
    subst ceiling. lia.
  - rewrite calls_app, calls_times.
    replace (calls is_create (missed_poll github_url)) with 0%nat
      by reflexivity.
    replace (calls is_create
               (EvCreateFile (lit "clips/" ++ filename)
                :: failed_uploads k 3 (lit "clips/" ++ filename)
                     [EvOpen html_path]))
      with (S (calls is_create
                 (failed_uploads k 3 (lit "clips/" ++ filename)
                    [EvOpen html_path]))) by reflexivity.
    rewrite calls_create_failed. unfold calls. cbn. lia.
Qed.

Lemma deploy_timeout_returns_artifact_witness :
  fst (upload_to_github Scenario.cfg Scenario.pages_stalled
         Scenario.html_path [])
  = Ok (Some (lit "0123456789abcdef_page.html", Scenario.snapshot_url))
  /\ calls is_pages_get
       (snd (upload_to_github Scenario.cfg Scenario.pages_stalled
               Scenario.html_path []))
     = 60%nat.
Proof.
  destruct (@deploy_timeout_returns_artifact Scenario.cfg
              Scenario.pages_stalled Scenario.html_path Scenario.page
              (lit "web") 1)
    as (Hr & _ & Hn & _).
  - reflexivity.
  - reflexivity.
  - lia.
  - intros [|i] Hi; [discriminate | lia].
  - reflexivity.
  - intros n. cbn. discriminate.
  - cbn. lia.
  - split; [exact Hr|]. apply Nat2Z.inj. exact Hn.
Defined.

(** ** Extraction: [url2md] *)

Section Extraction.

Variable svc : services.

(** An attempt of [url2md] never raises, whatever the renderer does, and
    never fetches the page directly. *)
Lemma md_attempt_safe url i w :
  exists f w',
    md_attempt svc url i tt w = (Ok f, w')
    /\ calls is_direct_get w' = calls is_direct_get w.
Proof.
  unfold md_attempt, try_except, bind, call, of_http.
  destruct (jina_get svc (calls is_jina_get w)) as [code text|e].
  - destruct (code =? 200); eexists; eexists; split; reflexivity.
  - eexists; eexists; split; reflexivity.
Qed.

Lemma md_loop_safe url n :
  forall i w, exists o w',
    for_from n i tt (md_attempt svc url) w = (Ok o, w')
    /\ calls is_direct_get w' = calls is_direct_get w.
Proof.
  induction n as [|n IH]; intros i w.
  - exists None, w. split; reflexivity.
  - cbn [for_from]. unfold bind.
    destruct (md_attempt_safe url i w) as (f & w1 & -> & H1).
    destruct f as [a|[]].
    + exists (Some a), w1. split; [reflexivity | exact H1].
    + destruct (IH (i + 1) w1) as (o & w2 & -> & H2).
      exists o, w2. split; [reflexivity | congruence].
Qed.

(** [url2md] never takes the fallback path: the inner [except Exception]
    leaves nothing for the outer one, so no run of [url2md] requests the
    page directly, and its result is that of the retry loop alone. *)
Lemma url2md_never_falls_back url max_retries w :
  url2md_from svc url max_retries w
  = for_from (Z.to_nat max_retries) 0 tt (md_attempt svc url) w
  /\ calls is_direct_get (snd (url2md_from svc url max_retries w))
     = calls is_direct_get w.
Proof.
  unfold url2md_from, try_except, for_range.
  destruct (md_loop_safe url (Z.to_nat max_retries) 0 w)
    as (o & w' & -> & H).
  split; [reflexivity | exact H].
Qed.

Lemma md_loop_exhausted url :
  never_rendered svc ->
  forall n i w, fst (for_from n i tt (md_attempt svc url) w) = Ok None.
Proof.
  intros H. induction n as [|n IH]; intros i w; [reflexivity|].
  cbn [for_from]. unfold bind at 1.
  unfold md_attempt, try_except, bind, call, of_http.
  specialize (H (calls is_jina_get w)).
  destruct (jina_get svc (calls is_jina_get w)) as [code text|e].
  - apply Z.eqb_neq in H. rewrite H. apply IH.
  - cbn. apply IH.
Qed.

(** When every attempt of the primary path fails, [url2md] returns
    [None]. *)
Lemma url2md_exhausted_none url max_retries w :
  never_rendered svc ->
  fst (url2md_from svc url max_retries w) = Ok None.
Proof.
  intros H. destruct (url2md_never_falls_back url max_retries w) as [-> _].
  now apply md_loop_exhausted.
Qed.

(** ** Extraction: [get_page_content_by_bs] *)

Lemma bs_attempt_miss url i w :
  never_served svc ->
  bs_attempt svc url i tt w
  = (Ok (Continue tt), [EvSleep 5; EvDirectGet url] ++ w).
Proof.
  intros H. unfold bs_attempt, try_except, bind, call, of_http.
  specialize (H (calls is_direct_get w)).
  destruct (direct_get svc (calls is_direct_get w)) as [code text|e].
  - apply Z.eqb_neq in H. now rewrite H.
  - reflexivity.
Qed.

Lemma bs_loop_exhausts url :
  never_served svc ->
  forall n i w,
    for_from n i tt (bs_attempt svc url) w
    = (Ok None, times n [EvSleep 5; EvDirectGet url] ++ w).
Proof.
  intros H. induction n as [|n IH]; intros i w; [reflexivity|].
  cbn [for_from]. unfold bind at 1. rewrite bs_attempt_miss by exact H.
  rewrite IH. cbn [times]. now rewrite <- app_assoc, times_shift.
Qed.

(** When all 60 attempts fail, [get_page_content_by_bs] does not raise:
    it returns the pair of the last path component of the URL and the
    empty string, after 60 requests each followed by a 5 second wait. *)
Lemma get_page_content_by_bs_exhausted url w :
  never_served svc ->
  get_page_content_by_bs svc url w
  = (Ok (Pair (basename url) (lit "")),
     times 60 [EvSleep 5; EvDirectGet url] ++ w).
Proof.
  intros H. unfold get_page_content_by_bs, get_page_content_by_bs_from.
  unfold bind, for_range. now rewrite bs_loop_exhausts by exact H.
Qed.

End Extraction.

(** A document in which [find] finds nothing has no title: the three
    searches leave [title] at [None]. *)
Lemma bs_title_nothing_found doc :
  (forall name, find doc name = None) -> bs_title doc = None.
Proof.
  intros H. unfold bs_title. rewrite !H. cbn. now rewrite !H.
Qed.

(** C3: with a renderer that answers 503 to each of the 30 requests,
    [url2md] makes those 30 requests and nothing else, and returns [None]:
    the fallback of its outer [except] is not taken, because the inner
    [except Exception] catches every exception of an attempt and a status
    other than 200 raises none. *)
Theorem url2md_exhausted_returns_none :
  run (url2md Scenario.renderer_down Scenario.snapshot_url)
  = (Ok None,
     repeat (EvJinaGet (lit "https://r.jina.ai/" ++ Scenario.snapshot_url))
            30)
  /\ calls is_direct_get
       (snd (url2md Scenario.renderer_down Scenario.snapshot_url [])) = 0%nat.
Proof. split; vm_compute; reflexivity. Qed.

(** C9: when the page answers 404 to each of the 60 direct requests,
    [get_page_content_by_bs] returns the pair
    [("0123456789abcdef_page.html", "")], whereas on a 200 it returns one
    string that starts with "Title: ": the two results differ in shape. *)
Theorem get_page_content_by_bs_shapes :
  fst (run (get_page_content_by_bs Scenario.site_down Scenario.snapshot_url))
  = Ok (Pair (lit "0123456789abcdef_page.html") (lit ""))
  /\ calls is_direct_get
       (snd (get_page_content_by_bs Scenario.site_down
               Scenario.snapshot_url [])) = 60%nat
  /\ fst (run (get_page_content_by_bs Scenario.happy Scenario.snapshot_url))
     = Ok (Text (lit "Title: None " ++ Scenario.nl ++ Scenario.nl
                   ++ lit " " ++ Scenario.page))
  /\ (forall s title body, Text s <> Pair title body).
Proof.
  repeat split; try (vm_compute; reflexivity). discriminate.
Qed.

(** C7: a fetched document with no [title] element and no heading gets the
    title [None], printed as "None" in the returned text; the title read
    back from that text by [get_page_content_by_md] is "None", not the
    sentinel 未知标题. *)
Theorem bs_title_without_heading_is_None :
  bs_title (Scenario.bare_soup Scenario.page) = None
  /\ fst (run (get_page_content_by_bs Scenario.happy Scenario.snapshot_url))
     = Ok (Text (lit "Title: None " ++ Scenario.nl ++ Scenario.nl
                   ++ lit " " ++ Scenario.page))
  /\ first_title (splitlines (lit "Title: None " ++ Scenario.nl
                                ++ Scenario.nl ++ lit " " ++ Scenario.page))
     = lit "None"
  /\ lit "None" <> lit "未知标题".
Proof.
  repeat split; try (vm_compute; reflexivity). discriminate.
Qed.

(** ** [generate_summary_tags] *)

(** What the format check of an attempt guarantees: a summary that is not
    the empty string and a tag list that is not the empty list. *)
Lemma summary_attempt_checked cfg svc prompt w summary tags w' :
  summary_attempt cfg svc prompt w = (Ok (summary, tags), w') ->
  summary <> [] /\ tags <> [].
Proof.
  unfold summary_attempt, bind.
  destruct (ai_result cfg svc prompt w) as [[[result|]|e] w1];
    try discriminate.
  destruct (parse_summary_tags result) as [s t].
  destruct s as [|c s]; [discriminate|].
  destruct t as [|x t]; [discriminate|].
  cbn. intros H. injection H as <- <- _. split; discriminate.
Qed.

(** A tag line that names no tag still parses to a list of one tag, the
    empty string. *)
Lemma split_not_nil c s : split c s <> [].
Proof.
  destruct s as [|x s]; cbn; [discriminate|].
  destruct (N.eqb x c); [discriminate|].
  destruct (split c s); discriminate.
Qed.

(** C5: the AI answers with a summary line and the tag line "标签：".  The
    first attempt is accepted, without retry: [generate_summary_tags]
    returns the summary with the tag list [['']], which holds no non-blank
    tag and is not the default; [save_to_notion] then keeps this list,
    because it is not empty, and filters the blank tag out, so that the
    payload sent to Notion has an empty tag set. *)
Theorem blank_tag_line_reaches_notion :
  parse_summary_tags (lit "摘要：好文" ++ Scenario.nl ++ lit "标签：")
  = (lit "好文", [lit ""])
  /\ run (generate_summary_tags Scenario.cfg Scenario.blank_tags
            (Some (Text (lit "Title: Example Domain"))))
     = (Ok (Some (lit "好文", [lit ""])),
        [EvAI (prompt_head ++ lit "Title: Example Domain" ++ lit "...")])
  /\ filter is_notion_create
       (snd (run (process_file Scenario.cfg Scenario.blank_tags
                    Scenario.html_path (lit "https://example.com/page"))))
     = [EvNotionCreate
          {| Title := lit "Example Domain";
             OriginalURL := Some (lit "https://example.com/page");
             SnapshotURL := Scenario.snapshot_url;
             Summary := lit "好文";
             Tags := [];
             Created := lit "1970-01-01T00:00:00.000Z" |}].
Proof. repeat split; vm_compute; reflexivity. Qed.

(** One iteration of a [for] loop. *)
Lemma for_from_S {A S} n i (s : S) (body : Z -> S -> M (flow A S)) w :
  for_from (Datatypes.S n) i s body w
  = match body i s w with
    | (Ok (Return a), w') => (Ok (Some a), w')
    | (Ok (Continue s'), w') => for_from n (i + 1) s' body w'
    | (Raise e, w') => (Raise e, w')
    end.
Proof.
  cbn [for_from]. unfold bind.
  destruct (body i s w) as [[[a|s']|e] w']; reflexivity.
Qed.

(** ** [process_file] when the publish step fails *)

Section PublishFails.

Variable cfg : config.
Variable svc : services.

(** When every file creation fails, the loop raises at attempt 4, having
    waited after each earlier attempt. *)
Lemma upload_loop_exhausted filename content (e : nat -> exn) :
  (forall i, github_create svc i = Some (e i)) ->
  forall k attempt retry_delay w,
    attempt + Z.of_nat k = 4 ->
    for_from (S k) attempt retry_delay
             (upload_retry cfg svc filename content) w
    = (Raise (publish_error (e (calls is_create w + k)%nat)),
       EvCreateFile (lit "clips/" ++ filename)
       :: failed_uploads k retry_delay (lit "clips/" ++ filename) w).
Proof.
  intros He. induction k as [|k IH]; intros attempt d w Ha.
  - cbn [for_from failed_uploads]. unfold bind.
    replace attempt with 4 by lia. rewrite Nat.add_0_r.
    now rewrite (@upload_retry_last cfg svc filename content d _ w (He _)).
  - rewrite for_from_S. cbn [failed_uploads].
    rewrite upload_retry_failed; [|rewrite He; discriminate|lia].
    rewrite IH by lia.
    replace (calls is_create
               (EvSleep d :: EvCreateFile (lit "clips/" ++ filename) :: w)
             + k)%nat
      with (calls is_create w + S k)%nat; [reflexivity|].
    unfold calls. cbn [filter is_create List.length]. lia.
Qed.

(** The publish step exhausted: [upload_to_github] raises its
    [RuntimeError] after five attempts and the waits of 3, 6, 12 and 24
    seconds between them. *)
Lemma upload_to_github_exhausted html_path content (e : nat -> exn) :
  open_read svc html_path = inr content ->
  (forall i, github_create svc i = Some (e i)) ->
  upload_to_github cfg svc html_path []
  = (Raise (publish_error (e 4%nat)),
     EvCreateFile (lit "clips/" ++ basename html_path)
     :: failed_uploads 4 3 (lit "clips/" ++ basename html_path)
          [EvOpen html_path]).
Proof.
  intros Ho He. unfold upload_to_github, for_range.
  unfold bind at 1. unfold call at 1. rewrite Ho. cbn [result_of_sum].
  change (Z.to_nat 5) with 5%nat.
  now rewrite (@upload_loop_exhausted (basename html_path) content e He)
    by reflexivity.
Qed.

(** With the publish step exhausted, [process_file] ends in an exception
    whatever Telegram does; it has made no request to Notion, and the last
    thing it did was to send the failure notification.  The exception is
    the publish error when that notification is delivered, and the error
    of the delivery otherwise. *)
Lemma process_file_publish_exhausted html_path declared_url content
    (e : nat -> exn) :
  open_read svc html_path = inr content ->
  (forall i, github_create svc i = Some (e i)) ->
  process_file cfg svc html_path declared_url []
  = (match telegram_send svc 0 with
     | None => Raise (publish_error (e 4%nat))
     | Some delivery_error => Raise delivery_error
     end,
     EvSend (lit "❌ 处理失败: " ++ exn_str (publish_error (e 4%nat)))
     :: EvCreateFile (lit "clips/" ++ basename html_path)
     :: failed_uploads 4 3 (lit "clips/" ++ basename html_path)
          [EvOpen html_path]).
Proof.
  intros Ho He. unfold process_file, try_except, process_file_try.
  unfold bind at 1.
  rewrite (@upload_to_github_exhausted html_path content e Ho He).
  cbn [Exception]. unfold bind, send_telegram_notification, call.
  replace (calls is_send
             (EvCreateFile (lit "clips/" ++ basename html_path)
              :: failed_uploads 4 3 (lit "clips/" ++ basename html_path)
                   [EvOpen html_path])) with 0%nat by reflexivity.
  destruct (telegram_send svc 0); reflexivity.
Qed.

End PublishFails.

(** C1: GitHub refuses all five uploads and Telegram delivers nothing.
    [process_file] waits 3, 6, 12 and 24 seconds between the attempts,
    makes no request to Notion, attempts the failure notification, and
    ends in an exception; but what it raises to its caller is the error of
    the notification, not the publish error. *)
Theorem publish_error_lost_when_notification_fails :
  run (process_file Scenario.cfg Scenario.github_and_telegram_down
         Scenario.html_path (lit "https://example.com/page"))
  = (Raise Scenario.timed_out,
     [EvOpen Scenario.html_path;
      EvCreateFile (lit "clips/0123456789abcdef_page.html"); EvSleep 3;
      EvCreateFile (lit "clips/0123456789abcdef_page.html"); EvSleep 6;
      EvCreateFile (lit "clips/0123456789abcdef_page.html"); EvSleep 12;
      EvCreateFile (lit "clips/0123456789abcdef_page.html"); EvSleep 24;
      EvCreateFile (lit "clips/0123456789abcdef_page.html");
      EvSend (lit "❌ 处理失败: GitHub 上传失败: 503")])
  /\ Scenario.timed_out <> publish_error Scenario.unavailable
  /\ fst (run (process_file Scenario.cfg Scenario.github_down
                 Scenario.html_path (lit "https://example.com/page")))
     = Raise (publish_error Scenario.unavailable).
Proof.
  repeat split; try (vm_compute; reflexivity). discriminate.
Qed.

(** C2: every step succeeds and Telegram fails to deliver.  The run that
    returns the success result when Telegram works now raises the error of
    the delivery to the caller of [process_file], after the page was
    recorded in Notion and a second notification was attempted. *)
Theorem notification_failure_is_raised :
  fst (run (process_file Scenario.cfg Scenario.happy
              Scenario.html_path (lit "https://example.com/page")))
  = Ok {| status := lit "success";
          github_url := Scenario.snapshot_url;
          notion_url := Some (lit "https://www.notion.so/page1") |}
  /\ fst (run (process_file Scenario.cfg Scenario.telegram_down
                 Scenario.html_path (lit "https://example.com/page")))
     = Raise Scenario.timed_out
  /\ calls is_notion_create
       (snd (run (process_file Scenario.cfg Scenario.telegram_down
                    Scenario.html_path (lit "https://example.com/page"))))
     = 1%nat
  /\ calls is_send
       (snd (run (process_file Scenario.cfg Scenario.telegram_down
                    Scenario.html_path (lit "https://example.com/page"))))
     = 2%nat.
Proof. repeat split; vm_compute; reflexivity. Qed.

(** ** More on the extraction paths *)

Section ExtractionBounds.

Variable svc : services.

Lemma md_attempt_requests url i w :
  exists f w',
    md_attempt svc url i tt w = (Ok f, w')
    /\ calls is_jina_get w' = S (calls is_jina_get w)
    /\ calls is_direct_get w' = calls is_direct_get w.
Proof.
  unfold md_attempt, try_except, bind, call, of_http.
  destruct (jina_get svc (calls is_jina_get w)) as [code text|e].
  - destruct (code =? 200); eexists; eexists; repeat split.
  - eexists; eexists; repeat split.
Qed.

Lemma md_loop_requests url n :
  forall i w, exists o w',
    for_from n i tt (md_attempt svc url) w = (Ok o, w')
    /\ (calls is_jina_get w' <= calls is_jina_get w + n)%nat
    /\ calls is_direct_get w' = calls is_direct_get w.
Proof.
  induction n as [|n IH]; intros i w.
  - exists None, w. repeat split. lia.
  - rewrite for_from_S.
    destruct (md_attempt_requests url i w) as (f & w1 & -> & Hj & Hd).
    destruct f as [a|[]].
    + exists (Some a), w1. repeat split; [lia | exact Hd].
    + destruct (IH (i + 1) w1) as (o & w2 & -> & Hj2 & Hd2).
      exists o, w2. repeat split; [lia | congruence].
Qed.

(** [url2md] never raises, whatever the renderer does; it sends at most
    30 requests to the renderer and never requests the page itself. *)
Theorem url2md_total url w :
  exists md_content w',
    url2md svc url w = (Ok md_content, w')
    /\ (calls is_jina_get w' <= calls is_jina_get w + 30)%nat
    /\ calls is_direct_get w' = calls is_direct_get w.
Proof.
  unfold url2md, url2md_from, try_except, for_range.
  change (Z.to_nat 30) with 30%nat.
  destruct (md_loop_requests url 30 0 w) as (o & w' & -> & Hj & Hd).
  exists o, w'. repeat split; assumption.
Qed.

Lemma bs_attempt_requests url i w :
  exists f w',
    bs_attempt svc url i tt w = (Ok f, w')
    /\ calls is_direct_get w' = S (calls is_direct_get w).
Proof.
  unfold bs_attempt, try_except, bind, call, of_http.
  destruct (direct_get svc (calls is_direct_get w)) as [code text|e].
  - destruct (code =? 200); eexists; eexists; split; reflexivity.
  - eexists; eexists; split; reflexivity.
Qed.

Lemma bs_loop_requests url n :
  forall i w, exists o w',
    for_from n i tt (bs_attempt svc url) w = (Ok o, w')
    /\ (calls is_direct_get w' <= calls is_direct_get w + n)%nat.
Proof.
  induction n as [|n IH]; intros i w.
  - exists None, w. split; [reflexivity | lia].
  - rewrite for_from_S.
    destruct (bs_attempt_requests url i w) as (f & w1 & -> & Hd).
    destruct f as [a|[]].
    + exists (Some a), w1. split; [reflexivity | lia].
    + destruct (IH (i + 1) w1) as (o & w2 & -> & Hd2).
      exists o, w2. split; [reflexivity | lia].
Qed.

(** [get_page_content_by_bs] never raises, whatever the site does or
    answers, and sends at most 60 requests. *)
Theorem get_page_content_by_bs_total url w :
  exists page w',
    get_page_content_by_bs svc url w = (Ok page, w')
    /\ (calls is_direct_get w' <= calls is_direct_get w + 60)%nat.
Proof.
  unfold get_page_content_by_bs, get_page_content_by_bs_from, for_range.
  change (Z.to_nat 60) with 60%nat. unfold bind.
  destruct (bs_loop_requests url 60 0 w) as (o & w' & -> & Hd).
  destruct o as [page|]; eexists; eexists; split; try reflexivity; exact Hd.
Qed.

End ExtractionBounds.

Lemma get_page_content_by_bs_exhausted_witness :
  get_page_content_by_bs Scenario.site_down Scenario.snapshot_url []
  = (Ok (Pair (lit "0123456789abcdef_page.html") (lit "")),
     times 60 [EvSleep 5; EvDirectGet Scenario.snapshot_url] ++ []).
Proof.
  apply (@get_page_content_by_bs_exhausted Scenario.site_down
           Scenario.snapshot_url []).
  intros n. cbn. discriminate.
Defined.

(** ** [url2md]: the first 200 *)

Section FirstAnswer.

Variable svc : services.

Lemma md_attempt_miss url i w :
  not_ok (jina_get svc (calls is_jina_get w)) ->
  exists w', md_attempt svc url i tt w = (Ok (Continue tt), w')
             /\ calls is_jina_get w' = S (calls is_jina_get w).
Proof.
  unfold md_attempt, try_except, bind, call, of_http, not_ok.
  destruct (jina_get svc (calls is_jina_get w)) as [code text|e]; intros H.
  - apply Z.eqb_neq in H. rewrite H. eexists; split; reflexivity.
  - eexists; split; reflexivity.
Qed.

Lemma md_attempt_hit url i w text :
  jina_get svc (calls is_jina_get w) = Response 200 text ->
  md_attempt svc url i tt w
  = (Ok (Return (Text text)), EvJinaGet (lit "https://r.jina.ai/" ++ url) :: w).
Proof.
  intros H. unfold md_attempt, try_except, bind, call, of_http.
  now rewrite H.
Qed.

Lemma md_loop_first_200 url text :
  forall k n i w,
    (k < n)%nat ->
    (forall j, (j < k)%nat ->
               not_ok (jina_get svc (calls is_jina_get w + j))) ->
    jina_get svc (calls is_jina_get w + k) = Response 200 text ->
    exists w',
      for_from n i tt (md_attempt svc url) w = (Ok (Some (Text text)), w')
      /\ calls is_jina_get w' = (calls is_jina_get w + S k)%nat.
Proof.
  induction k as [|k IH]; intros n i w Hn Hm Hh.
  - destruct n as [|n]; [lia|]. rewrite for_from_S.
    rewrite Nat.add_0_r in Hh. rewrite (md_attempt_hit url i w Hh).
    eexists; split; [reflexivity|]. unfold calls. cbn. lia.
  - destruct n as [|n]; [lia|]. rewrite for_from_S.
    destruct (md_attempt_miss url i w) as (w1 & -> & H1).
    { specialize (Hm 0%nat ltac:(lia)). now rewrite Nat.add_0_r in Hm. }
    destruct (IH n (i + 1) w1) as (w2 & -> & H2).
    + lia.
    + intros j Hj. rewrite H1. specialize (Hm (S j) ltac:(lia)).
      now rewrite <- plus_n_Sm in Hm.
    + rewrite H1. now rewrite <- plus_n_Sm in Hh.
    + exists w2. split; [reflexivity|]. lia.
Qed.

(** [url2md] returns the text of the first 200 the renderer gives within
    its 30 attempts, and stops asking there. *)
Theorem url2md_first_answer url text (k : nat) :
  (k < 30)%nat ->
  (forall j, (j < k)%nat -> not_ok (jina_get svc j)) ->
  jina_get svc k = Response 200 text ->
  fst (url2md svc url []) = Ok (Some (Text text))
  /\ calls is_jina_get (snd (url2md svc url [])) = S k.
Proof.
  intros Hk Hm Hh.
  destruct (url2md_never_falls_back svc url 30 []) as [E _].
  unfold url2md. rewrite E. change (Z.to_nat 30) with 30%nat.
  destruct (@md_loop_first_200 url text k 30%nat 0 []) as (w' & -> & Hc);
    try assumption.
  split; [reflexivity | exact Hc].
Qed.

End FirstAnswer.

Lemma url2md_first_answer_witness :
  fst (url2md Scenario.happy Scenario.snapshot_url [])
  = Ok (Some (Text (lit "Title: Example Domain" ++ Scenario.nl
                      ++ Scenario.nl ++ lit "hello")))
  /\ calls is_jina_get (snd (url2md Scenario.happy Scenario.snapshot_url []))
     = 1%nat.
Proof.
  apply (@url2md_first_answer Scenario.happy Scenario.snapshot_url _ 0).
  - lia.
  - intros j Hj. lia.
  - reflexivity.
Defined.

(** ** The publish step, exhausted *)

(** When GitHub refuses every file creation, [upload_to_github] makes
    exactly five attempts, waits 3, 6, 12 and 24 seconds between them and
    not after the last, polls nothing, and raises a [RuntimeError] whose
    message carries that of the last refusal. *)
Theorem upload_to_github_backoff cfg svc html_path content (e : nat -> exn) :
  open_read svc html_path = inr content ->
  (forall i, github_create svc i = Some (e i)) ->
  let file_path := lit "clips/" ++ basename html_path in
  run (upload_to_github cfg svc html_path)
  = (Raise (Exn RuntimeError (lit "GitHub 上传失败: " ++ exn_str (e 4%nat))),
     [EvOpen html_path;
      EvCreateFile file_path; EvSleep 3;
      EvCreateFile file_path; EvSleep 6;
      EvCreateFile file_path; EvSleep 12;
      EvCreateFile file_path; EvSleep 24;
      EvCreateFile file_path]).
Proof.
  intros Ho He file_path. unfold run.
  now rewrite (@upload_to_github_exhausted cfg svc html_path content e Ho He).
Qed.

Lemma upload_to_github_backoff_witness :
  fst (run (upload_to_github Scenario.cfg Scenario.github_down
              Scenario.html_path))
  = Raise (Exn RuntimeError (lit "GitHub 上传失败: 503")).
Proof.
  exact (f_equal fst
           (@upload_to_github_backoff Scenario.cfg Scenario.github_down
              Scenario.html_path Scenario.page
              (fun _ => Scenario.unavailable) eq_refl
              (fun _ => eq_refl))).
Defined.

Lemma process_file_publish_exhausted_witness :
  fst (process_file Scenario.cfg Scenario.github_down Scenario.html_path
         (lit "https://example.com/page") [])
  = Raise (publish_error Scenario.unavailable).
Proof.
  exact (f_equal fst
           (@process_file_publish_exhausted Scenario.cfg Scenario.github_down
              Scenario.html_path (lit "https://example.com/page")
              Scenario.page (fun _ => Scenario.unavailable) eq_refl
              (fun _ => eq_refl))).
Defined.

(** ** More on [parse_filename] and on the Notion payload *)

Lemma index_head {A} (x : A) l : index (x :: l) 0 = inr x.
Proof. reflexivity. Qed.

Lemma rsplit1_cases c s :
  (contains c s = false /\ rsplit1 c s = [s])
  \/ (exists a e, s = a ++ c :: e /\ contains c e = false
                  /\ rsplit1 c s = [a; e]).
Proof.
  induction s as [|x s IH]; [now left|].
  cbn [rsplit1]. destruct (contains c s) eqn:E.
  - right. destruct IH as [[H _] | (a & e & -> & He & ->)]; [congruence|].
    now exists (x :: a), e.
  - destruct (N.eqb x c) eqn:Ex.
    + right. apply N.eqb_eq in Ex. subst x. now exists [], s.
    + left. split; [|reflexivity].
      rewrite contains_cons, E, N.eqb_sym, Ex. reflexivity.
Qed.

Lemma split1_cases c s :
  contains c s = true ->
  exists p b, s = p ++ c :: b /\ contains c p = false /\ split1 c s = [p; b].
Proof.
  induction s as [|x s IH]; [discriminate|].
  rewrite contains_cons. cbn [split1]. rewrite N.eqb_sym.
  destruct (N.eqb x c) eqn:Ex; cbn [orb].
  - intros _. apply N.eqb_eq in Ex. subst x. now exists [], s.
  - intros H. destruct (IH H) as (p & b & -> & Hp & ->).
    exists (x :: p), b. repeat split.
    rewrite contains_cons, Hp, N.eqb_sym, Ex. reflexivity.
Qed.

Lemma no_dollar_left name :
  contains 36 (map (fun x => if N.eqb x 36 then 47%N else x) name) = false.
Proof.
  induction name as [|x name IH]; [reflexivity|].
  cbn [map]. rewrite contains_cons, IH, orb_false_r.
  destruct (N.eqb x 36) eqn:E; [reflexivity|].
  rewrite N.eqb_sym. exact E.
Qed.

(** What [parse_filename] decodes, for every filename: the filename is cut
    into [pre ++ name ++ post], where [post] is its last '.' with what
    follows (nothing when the filename has no '.'), and [pre] is what
    precedes the first '_' of the rest, with that '_' (nothing when the
    rest has no '_'); the URL is [name] with every '$' turned into '/' and
    every other character kept, so no '$' remains in it. *)
Theorem parse_filename_decoding filename :
  exists pre name post,
    filename = pre ++ name ++ post
    /\ original_url (parse_filename filename)
       = map (fun x => if N.eqb x 36 then 47%N else x) name
    /\ contains 36 (original_url (parse_filename filename)) = false
    /\ (pre = [] /\ contains 95 name = false
        \/ exists p, pre = p ++ [95%N] /\ contains 95 p = false)
    /\ (post = [] /\ contains 46 filename = false
        \/ exists e, post = 46%N :: e /\ contains 46 e = false).
Proof.
  assert (D : forall stem post,
             filename = stem ++ post ->
             rsplit1 46 filename = stem :: match post with
                                           | [] => []
                                           | _ :: e => [e]
                                           end ->
             (post = [] /\ contains 46 filename = false
              \/ exists e, post = 46%N :: e /\ contains 46 e = false) ->
             exists pre name post,
               filename = pre ++ name ++ post
               /\ original_url (parse_filename filename)
                  = map (fun x => if N.eqb x 36 then 47%N else x) name
               /\ contains 36 (original_url (parse_filename filename)) = false
               /\ (pre = [] /\ contains 95 name = false
                   \/ exists p, pre = p ++ [95%N] /\ contains 95 p = false)
               /\ (post = [] /\ contains 46 filename = false
                   \/ exists e, post = 46%N :: e /\ contains 46 e = false)).
  { intros stem post Hf Hs Hpost.
    destruct (contains 95 stem) eqn:E.
    - destruct (split1_cases 95 stem E) as (p & b & Hstem & Hp & Hsp).
      assert (R : original_url (parse_filename filename)
                  = map (fun x => if N.eqb x 36 then 47%N else x) b).
      { unfold parse_filename, parse_filename_try.
        rewrite Hs, index_head. cbv beta iota. rewrite E, Hsp.
        cbn [index nth_error parse_filename_except original_url].
        change (lit "$") with [36%N]. change (lit "/") with [47%N].
        apply replace_one. }
      exists (p ++ [95%N]), b, post. rewrite R. repeat split.
      + rewrite Hf, Hstem, <- !app_assoc. reflexivity.
      + apply no_dollar_left.
      + right. now exists p.
      + exact Hpost.
    - assert (R : original_url (parse_filename filename)
                  = map (fun x => if N.eqb x 36 then 47%N else x) stem).
      { unfold parse_filename, parse_filename_try.
        rewrite Hs, index_head. cbv beta iota. rewrite E.
        cbn [parse_filename_except original_url].
        change (lit "$") with [36%N]. change (lit "/") with [47%N].
        apply replace_one. }
      exists [], stem, post. rewrite R. repeat split.
      + exact Hf.
      + apply no_dollar_left.
      + now left.
      + exact Hpost. }
  destruct (rsplit1_cases 46 filename) as [[Hc Hs] | (a & e & Hf & He & Hs)].
  - apply (D filename []).
    + now rewrite app_nil_r.
    + exact Hs.
    + now left.
  - apply (D a (46%N :: e)).
    + exact Hf.
    + exact Hs.
    + right. now exists e.
Qed.

(** The tags of the payload: none is blank, and a clip without tags gets
    the single tag 未分类. *)
Theorem notion_tags_never_blank current_time data :
  Forall (fun tag => strip tag <> [])
         (Tags (notion_properties current_time data))
  /\ (clip_tags data = [] ->
      Tags (notion_properties current_time data) = [lit "未分类"]).
Proof.
  split.
  - unfold notion_properties. cbn [Tags]. apply Forall_forall.
    intros tag H. apply filter_In in H. destruct H as [_ H].
    destruct (strip tag); [discriminate | discriminate].
  - intros E. unfold notion_properties. cbn [Tags]. rewrite E.
    vm_compute. reflexivity.
Qed.

(** ** [save_to_notion]: retries and degradation *)

Section NotionRetries.

Variable cfg : config.
Variable svc : services.

Ltac run_notion :=
  unfold save_to_notion, for_range;
  change (Z.to_nat 3) with 3%nat;
  cbv [for_from bind try_except call ret Exception sleep create_task emit
       raise of_sum].

Lemma log_response_ok e w :
  exn_response e <> Some None -> log_response e w = (Ok tt, w).
Proof.
  unfold log_response.
  destruct (exn_response e) as [[t|]|]; intros H;
    [reflexivity | now elim H | reflexivity].
Qed.

(** When the timestamp can be formatted and Notion refuses the three
    create requests with exceptions whose [response], if they have one, is
    not [None], [save_to_notion] waits 2 and then 4 seconds between the
    requests, schedules a failure notification, and then, by default or
    with [skip_notion_on_error] set, returns the placeholder URL instead of
    raising; with the flag set to false it raises the last error. *)
Theorem save_to_notion_degrades data current_time (e : nat -> exn) :
  strftime_gmtime svc (clip_created_at data) = inr current_time ->
  (forall n, notion_create svc n = inl (e n)) ->
  (forall n, exn_response (e n) <> Some None) ->
  let props := notion_properties current_time data in
  run (save_to_notion cfg svc data)
  = (if get (skip_notion_on_error cfg) true
     then Ok (Some (lit "https://www.notion.so/error-saving"))
     else Raise (e 2%nat),
     [EvNotionCreate props; EvSleep 2;
      EvNotionCreate props; EvSleep 4;
      EvNotionCreate props;
      EvTask (lit "❌ Notion 保存失败: " ++ exn_str (e 2%nat))]).
Proof.
  intros Ht H Hr props. unfold run. run_notion. rewrite Ht. fold props.
  clearbody props.
  repeat (cbn -[lit get log_response]; rewrite H;
          cbn -[lit get log_response];
          rewrite log_response_ok by apply Hr).
  cbn -[lit get log_response].
  destruct (get (skip_notion_on_error cfg) true); reflexivity.
Qed.


(** A refusal of Notion whose exception has a [response] attribute that is
    [None] is not retried and not degraded: reading [e.response.text] in
    the handler raises an [AttributeError] out of [save_to_notion], after
    that one request, whatever [skip_notion_on_error] says. *)
Theorem save_to_notion_response_none data current_time e w :
  strftime_gmtime svc (clip_created_at data) = inr current_time ->
  notion_create svc (calls is_notion_create w) = inl e ->
  exn_response e = Some None ->
  save_to_notion cfg svc data w
  = (Raise (Exn AttributeError
              (lit "'NoneType' object has no attribute 'text'")),
     EvNotionCreate (notion_properties current_time data) :: w).
Proof.
  intros Ht Hc Hr. run_notion. cbv [log_response raise ret].
  rewrite Ht. cbn -[lit calls notion_properties]. rewrite Hc.
  cbn -[lit calls notion_properties]. now rewrite Hr.
Qed.

(** A clip whose timestamp cannot be formatted is never sent to Notion:
    the three attempts fail before any request, with the waits of 2 and 4
    seconds, and the function degrades to the placeholder URL (or raises
    the formatting error when [skip_notion_on_error] is false). *)
Theorem save_to_notion_bad_timestamp data e :
  strftime_gmtime svc (clip_created_at data) = inl e ->
  exn_response e <> Some None ->
  run (save_to_notion cfg svc data)
  = (if get (skip_notion_on_error cfg) true
     then Ok (Some (lit "https://www.notion.so/error-saving"))
     else Raise e,
     [EvSleep 2; EvSleep 4;
      EvTask (lit "❌ Notion 保存失败: " ++ exn_str e)]).
Proof.
  intros Ht Hr. unfold run. run_notion. cbv [log_response raise ret].
  rewrite Ht.
  destruct (exn_response e) as [[?|]|]; try congruence;
    cbn -[lit get];
    destruct (get (skip_notion_on_error cfg) true); reflexivity.
Qed.

End NotionRetries.

Lemma save_to_notion_degrades_witness :
  fst (run (save_to_notion Scenario.cfg
              (Scenario.outside_notion (fun _ => inl Scenario.unavailable))
              Scenario.a_clip))
  = Ok (Some (lit "https://www.notion.so/error-saving")).
Proof.
  exact (f_equal fst
           (@save_to_notion_degrades Scenario.cfg
              (Scenario.outside_notion (fun _ => inl Scenario.unavailable))
              Scenario.a_clip (lit "1970-01-01T00:00:00.000Z")
              (fun _ => Scenario.unavailable) eq_refl
              (fun _ => eq_refl)
              (fun _ H => ltac:(discriminate H)))).
Defined.


Lemma save_to_notion_response_none_witness :
  fst (save_to_notion Scenario.cfg
         (Scenario.outside_notion (fun _ => inl Scenario.no_response))
         Scenario.a_clip [])
  = Raise (Exn AttributeError
             (lit "'NoneType' object has no attribute 'text'")).
Proof.
  exact (f_equal fst
           (@save_to_notion_response_none Scenario.cfg
              (Scenario.outside_notion (fun _ => inl Scenario.no_response))
              Scenario.a_clip (lit "1970-01-01T00:00:00.000Z")
              Scenario.no_response [] eq_refl eq_refl eq_refl)).
Defined.

Lemma save_to_notion_bad_timestamp_witness :
  calls is_notion_create
    (snd (run (save_to_notion Scenario.cfg Scenario.clock_overflow
                 Scenario.a_clip))) = 0%nat
  /\ fst (run (save_to_notion Scenario.cfg Scenario.clock_overflow
                 Scenario.a_clip))
     = Ok (Some (lit "https://www.notion.so/error-saving")).
Proof.
  rewrite (@save_to_notion_bad_timestamp Scenario.cfg Scenario.clock_overflow
             Scenario.a_clip Scenario.out_of_range eq_refl
             ltac:(discriminate)).
  split; reflexivity.
Defined.

(** ** [generate_summary_tags]: retries and degradation *)

Lemma calls_ai_failed k attempt p w :
  calls is_ai (failed_summaries k attempt p w) = (k + calls is_ai w)%nat.
Proof.
  revert attempt w. induction k as [|k IH]; intros a w; [reflexivity|].
  cbn [failed_summaries]. rewrite IH. unfold calls. cbn. lia.
Qed.

Section SummaryRetries.

Variable cfg : config.
Variable svc : services.

Hypothesis chat_provider : ai_provider cfg <> Gemini.

Lemma summary_attempt_rejected prompt w :
  rejected (chat_completion svc (calls is_ai w)) ->
  exists e, summary_attempt cfg svc prompt w = (Raise e, EvAI prompt :: w).
Proof.
  unfold summary_attempt, bind, ai_result, call, rejected.
  destruct (ai_provider cfg); try congruence;
    (destruct (chat_completion svc (calls is_ai w)) as [e|[text|]];
     cbn [result_of_sum]; intros H;
     [ now exists e
     | destruct (parse_summary_tags text) as [summary tags];
       cbn [fst snd] in H; destruct H as [-> | ->];
       [ eexists; reflexivity
       | destruct summary; eexists; reflexivity ]
     | eexists; reflexivity ]).
Qed.

Lemma summary_loop_exhausted prompt max_retries :
  (forall n, rejected (chat_completion svc n)) ->
  forall k attempt w,
    attempt + Z.of_nat k = max_retries - 1 ->
    exists e,
      for_from (S k) attempt tt (summary_retry cfg svc prompt max_retries) w
      = (Raise e, EvAI prompt :: failed_summaries k attempt prompt w).
Proof.
  intros Hr. induction k as [|k IH]; intros attempt w Ha.
  - rewrite for_from_S. unfold summary_retry, try_except, bind.
    destruct (summary_attempt_rejected prompt w (Hr _)) as (e & ->).
    cbn [Exception]. replace (attempt =? max_retries - 1) with true
      by (symmetry; apply Z.eqb_eq; lia).
    now exists e.
  - rewrite for_from_S. unfold summary_retry at 1, try_except, bind.
    destruct (summary_attempt_rejected prompt w (Hr _)) as (e & ->).
    cbn [Exception]. replace (attempt =? max_retries - 1) with false
      by (symmetry; apply Z.eqb_neq; lia).
    cbn [sleep emit ret]. apply IH. lia.
Qed.

(** When the provider's answer is rejected at every attempt (an exception,
    or a text without a summary or tag line), [generate_summary_tags] with
    [max_retries >= 1] attempts makes exactly that many calls, waits
    [2 ** attempt] seconds after each but the last, schedules the failure
    notification unless [notify_on_ai_error] is false, and with
    [skip_ai_on_error] true or absent returns the configured default
    summary and tags instead of raising. *)
Theorem generate_summary_tags_exhausted content :
  1 <= get (openai_max_retries cfg) 3 ->
  (forall n, rejected (chat_completion svc n)) ->
  get (skip_ai_on_error cfg) true = true ->
  let prompt := prompt_head ++ firstn 5000 content ++ lit "..." in
  let max_retries := get (openai_max_retries cfg) 3 in
  exists e,
    generate_summary_tags cfg svc (Some (Text content)) []
    = (Ok (Some (get (default_summary cfg) (lit "无法生成摘要"),
                 get (default_tags cfg) [lit "未分类"])),
       (if get (notify_on_ai_error cfg) true
        then [EvTask (lit "⚠️ AI 服务失效提醒" ++ [10; 10]%N
                        ++ lit "错误信息：" ++ exn_str e)]
        else [])
       ++ EvAI prompt
       :: failed_summaries (Z.to_nat max_retries - 1) 0 prompt []).
Proof.
  intros Hm Hr Hs prompt max_retries.
  unfold generate_summary_tags, try_except, for_range.
  unfold bind at 1. cbn [build_prompt ret]. fold prompt. fold max_retries.
  remember (Z.to_nat max_retries - 1)%nat as k eqn:Ek.
  replace (Z.to_nat max_retries) with (S k)
    by (subst k max_retries; lia).
  destruct (@summary_loop_exhausted prompt max_retries Hr k 0 [])
    as (e & ->).
  { subst k max_retries. lia. }
  exists e. cbn [Exception]. unfold bind. rewrite Hs.
  destruct (get (notify_on_ai_error cfg) true); reflexivity.
Qed.

End SummaryRetries.


(** With [openai_max_retries] configured to 0 or less, the retry loop has
    no iteration: [generate_summary_tags] calls no provider and returns
    [None], neither an answer nor the defaults. *)
Theorem generate_summary_tags_no_attempt cfg svc content w :
  get (openai_max_retries cfg) 3 <= 0 ->
  generate_summary_tags cfg svc (Some (Text content)) w = (Ok None, w).
Proof.
  intros Hm. unfold generate_summary_tags, try_except, for_range.
  unfold bind. cbn [build_prompt ret].
  replace (Z.to_nat (get (openai_max_retries cfg) 3)) with 0%nat by lia.
  reflexivity.
Qed.

Lemma generate_summary_tags_exhausted_witness :
  fst (generate_summary_tags Scenario.cfg Scenario.ai_down
         (Some (Text (lit "hello"))) [])
  = Ok (Some (lit "无法生成摘要", [lit "未分类"]))
  /\ calls is_ai
       (snd (generate_summary_tags Scenario.cfg Scenario.ai_down
               (Some (Text (lit "hello"))) [])) = 3%nat.
Proof.
  destruct (@generate_summary_tags_exhausted Scenario.cfg Scenario.ai_down
              ltac:(discriminate) (lit "hello")) as (e & H).
  - cbn. lia.
  - intros n. exact I.
  - reflexivity.
  - rewrite H. split; reflexivity.
Defined.


Lemma generate_summary_tags_no_attempt_witness :
  generate_summary_tags Scenario.cfg_no_retries Scenario.happy
    (Some (Text (lit "hello"))) [] = (Ok None, []).
Proof.
  apply generate_summary_tags_no_attempt. cbn. lia.
Defined.

(** ** The deploy poll that succeeds *)

Section Deployed.

Variable cfg : config.
Variable svc : services.

Lemma deploy_check_missed filename github_url i w :
  missed (pages_get svc (calls is_pages_get w)) ->
  deploy_check svc filename github_url i tt w
  = (Ok (Continue tt), missed_poll github_url ++ w).
Proof.
  unfold deploy_check, try_except, bind, call, of_http, missed.
  destruct (pages_get svc (calls is_pages_get w)) as [code text|e]; intros H.
  - apply Z.eqb_neq in H. now rewrite H.
  - now rewrite H.
Qed.

Lemma deploy_check_hit filename github_url i w text :
  pages_get svc (calls is_pages_get w) = Response 200 text ->
  deploy_check svc filename github_url i tt w
  = (Ok (Return (filename, github_url)), EvPagesGet github_url :: w).
Proof.
  intros H. unfold deploy_check, try_except, bind, call, of_http.
  now rewrite H.
Qed.

Lemma deploy_poll_first_200 filename github_url text :
  forall j n i w,
    (j < n)%nat ->
    (forall k, (k < j)%nat ->
               missed (pages_get svc (calls is_pages_get w + k))) ->
    pages_get svc (calls is_pages_get w + j) = Response 200 text ->
    for_from n i tt (deploy_check svc filename github_url) w
    = (Ok (Some (filename, github_url)),
       EvPagesGet github_url :: times j (missed_poll github_url) ++ w).
Proof.
  induction j as [|j IH]; intros n i w Hn Hm Hh.
  - destruct n as [|n]; [lia|]. rewrite for_from_S.
    rewrite Nat.add_0_r in Hh. now rewrite (deploy_check_hit _ _ i w Hh).
  - destruct n as [|n]; [lia|]. rewrite for_from_S.
    rewrite deploy_check_missed
      by (specialize (Hm 0%nat ltac:(lia)); now rewrite Nat.add_0_r in Hm).
    assert (Hc : calls is_pages_get (missed_poll github_url ++ w)
                 = S (calls is_pages_get w)) by reflexivity.
    rewrite IH.
    + cbn [times]. now rewrite <- app_assoc, times_shift.
    + lia.
    + intros k Hk. rewrite Hc. specialize (Hm (S k) ltac:(lia)).
      now rewrite <- plus_n_Sm in Hm.
    + rewrite Hc. now rewrite <- plus_n_Sm in Hh.
Qed.

(** When the file is created at the first attempt and the published page
    first answers 200 at poll [j + 1], within the configured ceiling, the
    earlier polls having seen other statuses or network errors,
    [upload_to_github] returns the filename and the public URL at once:
    after [j + 1] polls and [j] waits of 5 seconds, none after the 200. *)
Theorem upload_to_github_deployed html_path content repo_name text (j : nat) :
  open_read svc html_path = inr content ->
  index (split 47%N (github_repo cfg)) 1%nat = inr repo_name ->
  github_create svc 0 = None ->
  Z.of_nat j < get (github_pages_max_retries cfg) 60 ->
  (forall k, (k < j)%nat -> missed (pages_get svc k)) ->
  pages_get svc j = Response 200 text ->
  let filename := basename html_path in
  let github_url := pages_url cfg repo_name filename in
  upload_to_github cfg svc html_path []
  = (Ok (Some (filename, github_url)),
     EvPagesGet github_url
     :: times j [EvSleep 5; EvPagesGet github_url]
     ++ [EvCreateFile (lit "clips/" ++ filename); EvOpen html_path]).
Proof.
  intros Ho Hr Hc Hj Hm Hh filename github_url.
  unfold upload_to_github, for_range.
  unfold bind at 1. unfold call at 1. rewrite Ho. cbn [result_of_sum].
  change (Z.to_nat 5) with 5%nat. rewrite for_from_S.
  unfold upload_retry, try_except. unfold bind at 1.
  unfold upload_attempt. unfold bind at 1. unfold call at 1.
  change (calls is_create [EvOpen html_path]) with 0%nat.
  rewrite Hc. cbn [of_failure]. rewrite Hr. cbn [of_sum].
  unfold bind at 1. unfold ret at 1. unfold bind at 1. unfold for_range.
  fold filename. fold github_url.
  rewrite (@deploy_poll_first_200 filename github_url text j); try assumption.
  - reflexivity.
  - lia.
Qed.

End Deployed.

Lemma upload_to_github_deployed_witness :
  upload_to_github Scenario.cfg Scenario.happy Scenario.html_path []
  = (Ok (Some (lit "0123456789abcdef_page.html", Scenario.snapshot_url)),
     [EvPagesGet Scenario.snapshot_url;
      EvCreateFile (lit "clips/0123456789abcdef_page.html");
      EvOpen Scenario.html_path]).
Proof.
  apply (@upload_to_github_deployed Scenario.cfg Scenario.happy
           Scenario.html_path Scenario.page (lit "web") Scenario.page 0).
  - reflexivity.
  - reflexivity.
  - reflexivity.
  - cbn. lia.
  - intros k Hk. lia.
  - reflexivity.
Defined.

(** ** [process_file] when the renderer is out *)

Section RendererOut.

Variable cfg : config.
Variable svc : services.

Lemma md_attempt_out url i w :
  never_rendered svc ->
  exists w',
    md_attempt svc url i tt w = (Ok (Continue tt), w')
    /\ calls is_jina_get w' = S (calls is_jina_get w)
    /\ (forall kind, foreign kind -> calls kind w' = calls kind w).
Proof.
  intros H. unfold md_attempt, try_except, bind, call, of_http.
  specialize (H (calls is_jina_get w)).
  destruct (jina_get svc (calls is_jina_get w)) as [code text|e].
  - apply Z.eqb_neq in H. rewrite H. eexists. repeat split.
    intros kind [Hj _]. unfold calls. cbn. now rewrite Hj.
  - eexists. repeat split.
    intros kind [Hj Hs]. unfold calls. cbn. now rewrite Hs, Hj.
Qed.

Lemma md_loop_out url :
  never_rendered svc ->
  forall n i w, exists w',
    for_from n i tt (md_attempt svc url) w = (Ok None, w')
    /\ calls is_jina_get w' = (calls is_jina_get w + n)%nat
    /\ (forall kind, foreign kind -> calls kind w' = calls kind w).
Proof.
  intros H. induction n as [|n IH]; intros i w.
  - exists w. repeat split. lia.
  - rewrite for_from_S.
    destruct (md_attempt_out url i w H) as (w1 & -> & Hj & Hk).
    destruct (IH (i + 1) w1) as (w2 & -> & Hj2 & Hk2).
    exists w2. repeat split; [lia|].
    intros kind Hf. rewrite (Hk2 kind Hf). now apply Hk.
Qed.

(** When the page is published and deployed at once but the renderer never
    answers 200, [process_file] fails: [url2md] returns [None] after its 30
    requests, reading the title of [None] raises an [AttributeError], and
    the run ends in an exception after the failure notification, without
    any call to the AI provider or to Notion and without requesting the
    page itself. *)
Theorem renderer_outage_aborts html_path declared_url content repo_name text :
  open_read svc html_path = inr content ->
  index (split 47%N (github_repo cfg)) 1%nat = inr repo_name ->
  github_create svc 0 = None ->
  0 < get (github_pages_max_retries cfg) 60 ->
  pages_get svc 0 = Response 200 text ->
  never_rendered svc ->
  let error :=
    Exn AttributeError
        (lit "'NoneType' object has no attribute 'splitlines'") in
  let out := process_file cfg svc html_path declared_url [] in
  fst out = match telegram_send svc 0 with
            | None => Raise error
            | Some delivery_error => Raise delivery_error
            end
  /\ (exists w', snd out = EvSend (lit "❌ 处理失败: " ++ exn_str error) :: w')
  /\ calls is_jina_get (snd out) = 30%nat
  /\ calls is_direct_get (snd out) = 0%nat
  /\ calls is_ai (snd out) = 0%nat
  /\ calls is_notion_create (snd out) = 0%nat.
Proof.
  intros Ho Hr Hc Hz Hp Hn error out.
  assert (E : exists w2,
    out = (match telegram_send svc 0 with
           | None => Raise error
           | Some delivery_error => Raise delivery_error
           end,
           EvSend (lit "❌ 处理失败: " ++ exn_str error) :: w2)
    /\ calls is_jina_get w2 = 30%nat
    /\ calls is_direct_get w2 = 0%nat
    /\ calls is_ai w2 = 0%nat
    /\ calls is_notion_create w2 = 0%nat).
  { subst out. unfold process_file, try_except, process_file_try.
    unfold bind at 1.
    rewrite (@upload_to_github_deployed cfg svc html_path content repo_name
               text 0 Ho Hr Hc ltac:(lia) ltac:(intros k Hk; lia) Hp).
    cbn [times app unpack]. unfold bind at 1. unfold ret at 1.
    unfold bind at 1.
    destruct (url2md_never_falls_back svc
                (pages_url cfg repo_name (basename html_path)) 30
                [EvPagesGet (pages_url cfg repo_name (basename html_path));
                 EvCreateFile (lit "clips/" ++ basename html_path);
                 EvOpen html_path]) as [E _].
    unfold url2md. rewrite E. change (Z.to_nat 30) with 30%nat.
    destruct (@md_loop_out (pages_url cfg repo_name (basename html_path)) Hn
                30%nat 0
                [EvPagesGet (pages_url cfg repo_name (basename html_path));
                 EvCreateFile (lit "clips/" ++ basename html_path);
                 EvOpen html_path]) as (w2 & -> & Hj & Hk).
    unfold bind at 1. cbn [get_page_content_by_md raise Exception].
    fold error. unfold bind, send_telegram_notification, call.
    assert (Hsend : calls is_send w2 = 0%nat)
      by (rewrite Hk; [reflexivity | split; reflexivity]).
    exists w2. rewrite Hsend. split.
    - destruct (telegram_send svc 0); reflexivity.
    - repeat split;
        try (rewrite Hk; [reflexivity | split; reflexivity]).
      rewrite Hj. reflexivity. }
  destruct E as (w2 & -> & Hj & Hd & Ha & Hc2). cbn [fst snd].
  split; [reflexivity|]. split; [now exists w2|].
  unfold calls in *. cbn [filter is_jina_get is_direct_get is_ai
                            is_notion_create List.length].
  repeat split; assumption.
Qed.

End RendererOut.

Lemma renderer_outage_aborts_witness :
  fst (process_file Scenario.cfg Scenario.renderer_down Scenario.html_path
         (lit "https://example.com/page") [])
  = Raise (Exn AttributeError
             (lit "'NoneType' object has no attribute 'splitlines'")).
Proof.
  destruct (@renderer_outage_aborts Scenario.cfg Scenario.renderer_down
              Scenario.html_path (lit "https://example.com/page")
              Scenario.page (lit "web") Scenario.page) as (H & _).
  - reflexivity.
  - reflexivity.
  - reflexivity.
  - cbn. lia.
  - reflexivity.
  - intros n. cbn. discriminate.
  - exact H.
Defined.
